(** * Sense mode controller, output layer and blinky: a shallow embedding

  The definitions below follow
  - [modules/pubsub/pubsub_events.h]  (the [Event] variant),
  - [modules/state_manager/state_manager.h]
    ([LedOutputStateMachine], [StateManager] and its seven modes),
  - [modules/blinky/blinky.cc]        ([Blinky::BlinkLoop], [Blinky::BlinkTwice]).

  Every [void] member function becomes a function from the object's state
  to the new state paired with the list of calls it made on its
  collaborators (LED driver, timer, bus, log), in program order. *)

From Stdlib Require Import ZArith List String Bool Lia DecimalString.
Import ListNotations.
Open Scope Z_scope.

(* ================================================================== *)
(** ** Events ([pubsub_events.h]) *)

Module Events.

(** [class LedValue]: three 8-bit channels. *)
Record LedValue : Type := mkLedValue { r : Z; g : Z; b : Z }.


(** The argument expressions of the [pubsub_->Publish(...)] calls in
    [state_manager.h]: [DemoModeTimerExpired{}] (timer callback),
    [AlarmSilenceRequest{.seconds = ...}] and
    [MorseEncodeRequest{.message = ..., .repeat = ...}]; the fields are
    the ones the designated initialisers name.  [pubsub_] is a
    [GenericPubSub<Event>], so the header is written against an [Event]
    with these three alternatives; the variant above has none of them,
    and their struct declarations are not in [pubsub_events.h]. *)
Inductive Published : Type :=
| DemoModeTimerExpired
| AlarmSilenceRequest (seconds : Z)
| MorseEncodeRequest (message : string) (repeat : Z).

(** [MorseCodeValue], the argument of [State::MorseCodeEdge]; the two
    fields are the ones the handlers read. *)
Record MorseCodeValue : Type :=
  mkMorseCodeValue { turn_on : bool; message_finished : bool }.

(** The event kinds as the specification enumerates them (section 3,
    "Event"); this type follows the specification's list, not the
    source. *)
Inductive SpecKind : Type :=
| alarm_state_changed
| button_A_state_changed
| button_B_state_changed
| button_X_state_changed
| button_Y_state_changed
| led_value_color_rotation
| led_value_morse_code
| led_value_proximity
| led_value_air_quality
| proximity_state_changed
| proximity_sample
| air_quality_score
| alarm_silence_request
| morse_encode_request
| demo_timer_expired.

Definition SpecKind_eqb (k1 k2 : SpecKind) : bool :=
  match k1, k2 with
  | alarm_state_changed, alarm_state_changed
  | button_A_state_changed, button_A_state_changed
  | button_B_state_changed, button_B_state_changed
  | button_X_state_changed, button_X_state_changed
  | button_Y_state_changed, button_Y_state_changed
  | led_value_color_rotation, led_value_color_rotation
  | led_value_morse_code, led_value_morse_code
  | led_value_proximity, led_value_proximity
  | led_value_air_quality, led_value_air_quality
  | proximity_state_changed, proximity_state_changed
  | proximity_sample, proximity_sample
  | air_quality_score, air_quality_score
  | alarm_silence_request, alarm_silence_request
  | morse_encode_request, morse_encode_request
  | demo_timer_expired, demo_timer_expired => true
  | _, _ => false
  end.







End Events.

(* ================================================================== *)
(** ** The LED driver *)

Module PolychromeLed.

(** What the driver was last asked to show: [SetColor(r, g, b)] or
    [SetColor(uint32_t)]. *)
Inductive Color : Type :=
| Rgb (red green blue : Z)
| Hex (color : Z).

(** Modelled from the spec: [modules/led/polychrome_led.h] is not among
    the sources; section 6 gives the driver as "exposing
    set-color(r,g,b), set-brightness(u8)".  The driver state is the
    colour and the brightness the indicator shows. *)
Record t : Type := mk { color : Color; brightness : Z }.

(** The calls the output layer makes on the driver. *)
Inductive Call : Type :=
| CallSetColorRgb (red green blue : Z)
| CallSetColorHex (color : Z)
| CallSetBrightness (value : Z).

Definition SetColorRgb (red green blue : Z) (l : t) : t :=
  mk (Rgb red green blue) (brightness l).

Definition SetColorHex (c : Z) (l : t) : t :=
  mk (Hex c) (brightness l).

Definition SetBrightness (v : Z) (l : t) : t :=
  mk (color l) v.

End PolychromeLed.

(* ================================================================== *)
(** ** The output layer ([class LedOutputStateMachine]) *)

Module LedOutputStateMachine.

(** [enum : bool { kPassthrough, kOverride } state_]. *)
Inductive OutputState : Type := kPassthrough | kOverride.

(** The private members, with the driver [led_] points to. *)
Record t : Type := mk {
  state_ : OutputState;
  brightness_ : Z;
  red_ : Z;
  green_ : Z;
  blue_ : Z;
  led_ : PolychromeLed.t
}.

(** A member function: new state and the driver calls made, in order. *)
Definition Method : Type := t -> t * list PolychromeLed.Call.

(** The constructor: passthrough, the given brightness, black; the
    driver is not touched. *)
Definition init (led : PolychromeLed.t) (brightness : Z) : t :=
  mk kPassthrough brightness 0 0 0 led.

Definition UpdateLed : Method := fun s =>
  match state_ s with
  | kPassthrough =>
      (mk (state_ s) (brightness_ s) (red_ s) (green_ s) (blue_ s)
          (PolychromeLed.SetBrightness (brightness_ s)
             (PolychromeLed.SetColorRgb (red_ s) (green_ s) (blue_ s)
                (led_ s))),
       [ PolychromeLed.CallSetColorRgb (red_ s) (green_ s) (blue_ s);
         PolychromeLed.CallSetBrightness (brightness_ s) ])
  | kOverride => (s, [])
  end.

Definition Override (color brightness : Z) : Method := fun s =>
  (mk kOverride (brightness_ s) (red_ s) (green_ s) (blue_ s)
      (PolychromeLed.SetBrightness brightness
         (PolychromeLed.SetColorHex color (led_ s))),
   [ PolychromeLed.CallSetColorHex color;
     PolychromeLed.CallSetBrightness brightness ]).

Definition EndOverride : Method := fun s =>
  UpdateLed
    (mk kPassthrough (brightness_ s) (red_ s) (green_ s) (blue_ s) (led_ s)).

Definition SetColor (value : Events.LedValue) : Method := fun s =>
  UpdateLed
    (mk (state_ s) (brightness_ s)
        (Events.r value) (Events.g value) (Events.b value) (led_ s)).

Definition SetBrightness (brightness : Z) : Method := fun s =>
  UpdateLed
    (mk (state_ s) brightness (red_ s) (green_ s) (blue_ s) (led_ s)).

(** The stored passthrough values as the driver shows them. *)
Definition stored (s : t) : PolychromeLed.t :=
  PolychromeLed.mk (PolychromeLed.Rgb (red_ s) (green_ s) (blue_ s))
                   (brightness_ s).

(** A passthrough write: one of the two setters. *)
Inductive PassthroughWrite : Type :=
| WColor (value : Events.LedValue)
| WBrightness (brightness : Z).

Definition write (w : PassthroughWrite) : Method :=
  match w with
  | WColor v => SetColor v
  | WBrightness v => SetBrightness v
  end.

(** A run of passthrough writes, the driver calls concatenated. *)
Fixpoint writes (ws : list PassthroughWrite) : Method := fun s =>
  match ws with
  | [] => (s, [])
  | w :: ws' =>
      let (s1, c1) := write w s in
      let (s2, c2) := writes ws' s1 in
      (s2, c1 ++ c2)
  end.

(** The colour and brightness last written by a run of writes, starting
    from given stored values. *)
Fixpoint last_written (ws : list PassthroughWrite) (cur : Z * Z * Z * Z)
  : Z * Z * Z * Z :=
  match ws with
  | [] => cur
  | WColor v :: ws' =>
      let '(_, _, _, br) := cur in
      last_written ws' (Events.r v, Events.g v, Events.b v, br)
  | WBrightness v :: ws' =>
      let '(cr, cg, cb, _) := cur in
      last_written ws' (cr, cg, cb, v)
  end.

Definition stored_values (s : t) : Z * Z * Z * Z :=
  (red_ s, green_ s, blue_ s, brightness_ s).

(** Any public member function of the layer. *)
Inductive Op : Type :=
| OpOverride (color brightness : Z)
| OpEndOverride
| OpSetColor (value : Events.LedValue)
| OpSetBrightness (brightness : Z).

Definition run (o : Op) : Method :=
  match o with
  | OpOverride c v => Override c v
  | OpEndOverride => EndOverride
  | OpSetColor v => SetColor v
  | OpSetBrightness v => SetBrightness v
  end.

(** A state some member function of the layer has just returned from.
    [StateManager]'s constructor builds [led_] and then the first mode,
    whose [State] constructor calls [SetBrightness]: every state of the
    layer the controller can be observed in is of this form. *)
Definition after_call (s : t) : Prop :=
  exists (o : Op) (s0 : t), s = fst (run o s0).

(** In passthrough the driver shows the stored values. *)
Definition synced (s : t) : Prop :=
  state_ s = kPassthrough -> led_ s = stored s.

End LedOutputStateMachine.

(* ================================================================== *)
(** ** The mode controller ([class StateManager]) *)

Module StateManager.

(** The alternatives of [CommonBaseUnion<State, ...> state_]. *)
Inductive Mode : Type :=
| AirQualityMode
| AirQualityThresholdMode
| AirQualityAlarmMode
| MorseReadout
| ProximityDemo
| MorseCodeDemo
| ColorRotationDemo.

(** [State::name()]: the literal each constructor passes up. *)
Definition name (m : Mode) : string :=
  match m with
  | AirQualityMode => "AirQualityMode"
  | AirQualityThresholdMode => "AirQualityThresholdMode"
  | AirQualityAlarmMode => "AirQualityAlarmMode"
  | MorseReadout => "MorseReadout"
  | ProximityDemo => "ProximityDemo"
  | MorseCodeDemo => "MorseCodeDemo"
  | ColorRotationDemo => "ColorRotationDemo"
  end%string.

(** [pw::chrono::SystemClock::duration], counted in seconds. *)
Definition duration : Type := Z.

Definition kDemoModeTimeout : duration := 30.
Definition kThresholdModeTimeout : duration := 3.
Definition kDefaultBrightness : Z := 220.
Definition kThresholdIncrement : Z := 128.
Definition kMaxThreshold : Z := 768.

(** Modelled from the spec: [pw::chrono::SystemTimer] is a library class
    outside the sources.  Section 4.5: "arm(duration): starts (or
    restarts) a one-shot countdown; re-arming an already-running timer
    replaces the previous deadline.  cancel(): stops the timer; canceling
    an unarmed timer is a no-op."  [None] is the unarmed timer, [Some d]
    the timer armed for [d]. *)
Definition SystemTimer : Type := option duration.

Definition timer_InvokeAfter (d : duration) (tm : SystemTimer) : SystemTimer :=
  Some d.

Definition timer_Cancel (tm : SystemTimer) : SystemTimer :=
  match tm with
  | Some _ => None
  | None => None
  end.

(** The data members ([pubsub_] is the bus the effects below go to). *)
Record t : Type := mk {
  led_ : LedOutputStateMachine.t;
  state_ : Mode;
  demo_mode_timer_ : SystemTimer;
  alarmed_ : bool;
  current_threshold_ : Z;
  last_air_quality_score_ : Z;
  air_quality_score_string_ : string
}.

(** What a member function does to its collaborators. *)
Inductive Effect : Type :=
| TimerCancel
| TimerInvokeAfter (d : duration)
| Led (c : PolychromeLed.Call)
| Publish (p : Events.Published)
| Destroy (m : Mode)
| Construct (m : Mode)
| Log (old_state new_state : string).

(** A [void] member function: new state and effects in program order. *)
Definition Method : Type := t -> t * list Effect.

Definition skip : Method := fun s => (s, []).

Definition seq (a b : Method) : Method := fun s =>
  let (s1, e1) := a s in
  let (s2, e2) := b s1 in
  (s2, e1 ++ e2).

Notation "a ;; b" := (seq a b) (at level 61, right associativity).

Definition emit (e : Effect) : Method := fun s => (s, [e]).

Definition with_led (l : LedOutputStateMachine.t) (s : t) : t :=
  mk l (state_ s) (demo_mode_timer_ s) (alarmed_ s) (current_threshold_ s)
     (last_air_quality_score_ s) (air_quality_score_string_ s).

Definition with_state (m : Mode) (s : t) : t :=
  mk (led_ s) m (demo_mode_timer_ s) (alarmed_ s) (current_threshold_ s)
     (last_air_quality_score_ s) (air_quality_score_string_ s).

Definition with_timer (tm : SystemTimer) (s : t) : t :=
  mk (led_ s) (state_ s) tm (alarmed_ s) (current_threshold_ s)
     (last_air_quality_score_ s) (air_quality_score_string_ s).

Definition with_alarmed (a : bool) (s : t) : t :=
  mk (led_ s) (state_ s) (demo_mode_timer_ s) a (current_threshold_ s)
     (last_air_quality_score_ s) (air_quality_score_string_ s).

Definition with_threshold (v : Z) (s : t) : t :=
  mk (led_ s) (state_ s) (demo_mode_timer_ s) (alarmed_ s) v
     (last_air_quality_score_ s) (air_quality_score_string_ s).

Definition with_string (str : string) (s : t) : t :=
  mk (led_ s) (state_ s) (demo_mode_timer_ s) (alarmed_ s)
     (current_threshold_ s) (last_air_quality_score_ s) str.

(** A call on [led_]: the layer's driver calls become effects. *)
Definition on_led (m : LedOutputStateMachine.Method) : Method := fun s =>
  let (l, calls) := m (led_ s) in
  (with_led l s, map Led calls).

(** [demo_mode_timer_.Cancel()] and [demo_mode_timer_.InvokeAfter(d)]. *)
Definition Cancel : Method := fun s =>
  (with_timer (timer_Cancel (demo_mode_timer_ s)) s, [TimerCancel]).

Definition InvokeAfter (d : duration) : Method := fun s =>
  (with_timer (timer_InvokeAfter d (demo_mode_timer_ s)) s,
   [TimerInvokeAfter d]).


(** Decimal rendering of an unsigned value. *)
Definition render (v : Z) : string :=
  NilZero.string_of_uint (N.to_uint (Z.to_N v)).

(** Modelled from the spec: [StateManager::DisplayThreshold] is declared
    in the header and defined in a file that is not among the sources.
    Sections 3 and 4.3: the controller keeps "a small fixed-capacity
    rendered string of the threshold for display" and the threshold mode's
    entry action is "render threshold". *)
Definition DisplayThreshold : Method := fun s =>
  (with_string (render (current_threshold_ s)) s, []).

(** Modelled from the spec: [StateManager::StartMorseReadout] is declared
    in the header and defined in a file that is not among the sources.
    Section 4.3: "start repeating morse readout" / "start single-shot
    morse readout"; section 6: morse-encode-request carries "message
    (text), repeat (uint, 0 = infinite)". *)
Definition StartMorseReadout (repeat : bool) : Method := fun s =>
  (s, [Publish (Events.MorseEncodeRequest (air_quality_score_string_ s)
                  (if repeat then 0 else 1))]).

(** The value [lo <= _ <= hi] nearest to [v]. *)
Definition clamp (lo hi v : Z) : Z := Z.max lo (Z.min hi v).

(** Modelled from the spec: [StateManager::IncrementThreshold] and
    [StateManager::DecrementThreshold] are declared in the header and
    defined in a file that is not among the sources.  Section 4.6:
    "adjust current-threshold by +/-128 clamped to [0, 768], re-render the
    display string, and re-arm the countdown with the given duration". *)
Definition IncrementThreshold (timeout : duration) : Method :=
  (fun s =>
     (with_threshold
        (clamp 0 kMaxThreshold (current_threshold_ s + kThresholdIncrement))
        s, []))
  ;; DisplayThreshold ;; InvokeAfter timeout.

Definition DecrementThreshold (timeout : duration) : Method :=
  (fun s =>
     (with_threshold
        (clamp 0 kMaxThreshold (current_threshold_ s - kThresholdIncrement))
        s, []))
  ;; DisplayThreshold ;; InvokeAfter timeout.

(** *** Constructors *)

(** [State::State]: [manager_.led_.SetBrightness(kDefaultBrightness)]. *)
Definition State_ctor : Method :=
  on_led (LedOutputStateMachine.SetBrightness kDefaultBrightness).

(** [TimeoutState::TimeoutState]: the base constructor, then
    [manager.demo_mode_timer_.InvokeAfter(timeout)]. *)
Definition TimeoutState_ctor (timeout : duration) : Method :=
  State_ctor ;; InvokeAfter timeout.

(** The constructor of each mode: base class first, then its own body. *)
Definition ctor (m : Mode) : Method :=
  match m with
  | AirQualityMode => State_ctor
  | AirQualityThresholdMode =>
      TimeoutState_ctor kThresholdModeTimeout ;; DisplayThreshold
  | AirQualityAlarmMode => State_ctor ;; StartMorseReadout true
  | MorseReadout => State_ctor ;; StartMorseReadout false
  | ProximityDemo => TimeoutState_ctor kDemoModeTimeout
  | MorseCodeDemo =>
      TimeoutState_ctor kDemoModeTimeout
      ;; on_led (LedOutputStateMachine.SetColor (Events.mkLedValue 0 255 255))
      ;; emit (Publish (Events.MorseEncodeRequest "PW" 0))
  | ColorRotationDemo => TimeoutState_ctor kDemoModeTimeout
  end.

(** The timeout a mode hands to [TimeoutState], for the modes that derive
    from it. *)
Definition timeout_of (m : Mode) : option duration :=
  match m with
  | AirQualityThresholdMode => Some kThresholdModeTimeout
  | ProximityDemo | MorseCodeDemo | ColorRotationDemo => Some kDemoModeTimeout
  | AirQualityMode | AirQualityAlarmMode | MorseReadout => None
  end.

(** Modelled from the spec: [CommonBaseUnion::emplace]
    ([common_base_union.h] is not among the sources).  Section 4.2:
    "destroys the current mode value, constructs the new mode value in
    the same storage (entry action runs here)".  [~State()] is defaulted:
    destruction has no effect of its own. *)
Definition emplace (m : Mode) : Method :=
  (fun s => (s, [Destroy (state_ s)]))
  ;; (fun s => (with_state m s, [Construct m]))
  ;; ctor m.

(** Modelled from the spec: [StateManager::LogStateChange] is declared in
    the header and defined elsewhere.  Section 4.2: "logs the (old-name,
    new-name) pair". *)
Definition LogStateChange (old_state : string) : Method := fun s =>
  (s, [Log old_state (name (state_ s))]).

(** [template <typename StateType> void SetState()]. *)
Definition SetState (m : Mode) : Method :=
  Cancel
  ;; (fun s =>
        let old_state := name (state_ s) in
        (emplace m ;; LogStateChange old_state) s).

(** *** Event handlers, class by class *)

(** [State::AlarmStateChanged]. *)
Definition State_AlarmStateChanged (alarm : bool) : Method := fun s =>
  if Bool.eqb (alarmed_ s) alarm then (s, [])
  else
    ((fun s' => (with_alarmed alarm s', []))
     ;; (if alarm then SetState AirQualityAlarmMode
         else SetState AirQualityMode)) s.

Definition State_ButtonAReleased : Method := SetState AirQualityThresholdMode.
Definition State_ButtonBReleased : Method := SetState AirQualityThresholdMode.
Definition State_ButtonXReleased : Method := skip.
Definition State_ButtonYReleased : Method := skip.
Definition State_ProximityModeLedValue (_ : Events.LedValue) : Method := skip.
Definition State_AirQualityModeLedValue (_ : Events.LedValue) : Method := skip.
Definition State_ColorRotationModeLedValue (_ : Events.LedValue) : Method :=
  skip.
Definition State_MorseCodeEdge (_ : Events.MorseCodeValue) : Method := skip.
Definition State_DemoModeTimerExpired : Method := skip.

(** [TimeoutState]'s two overrides. *)
Definition TimeoutState_ButtonYReleased : Method := SetState MorseReadout.
Definition TimeoutState_DemoModeTimerExpired : Method :=
  SetState AirQualityMode.

(** [value.turn_on ? kDefaultBrightness : 0], shared by the three
    [MorseCodeEdge] overrides. *)
Definition edge_brightness (value : Events.MorseCodeValue) : Z :=
  if Events.turn_on value then kDefaultBrightness else 0.

(** The handler each mode ends up with: its own override, else the one
    of [TimeoutState] when it derives from it, else [State]'s. *)

Definition AlarmStateChanged (m : Mode) (alarm : bool) : Method :=
  match m with
  | AirQualityMode | AirQualityThresholdMode | AirQualityAlarmMode
  | MorseReadout | ProximityDemo | MorseCodeDemo | ColorRotationDemo =>
      State_AlarmStateChanged alarm
  end.

Definition ButtonAReleased (m : Mode) : Method :=
  match m with
  | AirQualityThresholdMode => IncrementThreshold kThresholdModeTimeout
  | AirQualityMode | AirQualityAlarmMode | MorseReadout
  | ProximityDemo | MorseCodeDemo | ColorRotationDemo =>
      State_ButtonAReleased
  end.

Definition ButtonBReleased (m : Mode) : Method :=
  match m with
  | AirQualityThresholdMode => DecrementThreshold kThresholdModeTimeout
  | AirQualityMode | AirQualityAlarmMode | MorseReadout
  | ProximityDemo | MorseCodeDemo | ColorRotationDemo =>
      State_ButtonBReleased
  end.

Definition ButtonXReleased (m : Mode) : Method :=
  match m with
  | AirQualityMode => SetState ProximityDemo
  | MorseReadout => SetState ProximityDemo
  | ProximityDemo => SetState MorseCodeDemo
  | MorseCodeDemo => SetState ColorRotationDemo
  | ColorRotationDemo => SetState ProximityDemo
  | AirQualityThresholdMode | AirQualityAlarmMode => State_ButtonXReleased
  end.

Definition ButtonYReleased (m : Mode) : Method :=
  match m with
  | AirQualityMode => SetState MorseReadout
  | AirQualityAlarmMode => emit (Publish (Events.AlarmSilenceRequest 60))
  | MorseReadout => SetState AirQualityMode
  | AirQualityThresholdMode | ProximityDemo | MorseCodeDemo
  | ColorRotationDemo => TimeoutState_ButtonYReleased
  end.

Definition ProximityModeLedValue (m : Mode) (value : Events.LedValue)
  : Method :=
  match m with
  | ProximityDemo => on_led (LedOutputStateMachine.SetColor value)
  | AirQualityMode | AirQualityThresholdMode | AirQualityAlarmMode
  | MorseReadout | MorseCodeDemo | ColorRotationDemo =>
      State_ProximityModeLedValue value
  end.

Definition AirQualityModeLedValue (m : Mode) (value : Events.LedValue)
  : Method :=
  match m with
  | AirQualityMode | AirQualityAlarmMode =>
      on_led (LedOutputStateMachine.SetColor value)
  | AirQualityThresholdMode | MorseReadout | ProximityDemo | MorseCodeDemo
  | ColorRotationDemo => State_AirQualityModeLedValue value
  end.

Definition ColorRotationModeLedValue (m : Mode) (value : Events.LedValue)
  : Method :=
  match m with
  | ColorRotationDemo => on_led (LedOutputStateMachine.SetColor value)
  | AirQualityMode | AirQualityThresholdMode | AirQualityAlarmMode
  | MorseReadout | ProximityDemo | MorseCodeDemo =>
      State_ColorRotationModeLedValue value
  end.

Definition MorseCodeEdge (m : Mode) (value : Events.MorseCodeValue)
  : Method :=
  match m with
  | AirQualityAlarmMode | MorseCodeDemo =>
      on_led (LedOutputStateMachine.SetBrightness (edge_brightness value))
  | MorseReadout =>
      on_led (LedOutputStateMachine.SetBrightness (edge_brightness value))
      ;; (if Events.message_finished value then SetState AirQualityMode
          else skip)
  | AirQualityMode | AirQualityThresholdMode | ProximityDemo
  | ColorRotationDemo => State_MorseCodeEdge value
  end.

Definition DemoModeTimerExpired (m : Mode) : Method :=
  match m with
  | AirQualityThresholdMode | ProximityDemo | MorseCodeDemo
  | ColorRotationDemo => TimeoutState_DemoModeTimerExpired
  | AirQualityMode | AirQualityAlarmMode | MorseReadout =>
      State_DemoModeTimerExpired
  end.

(** [state_.get().Handler(...)]: the call goes to the active mode. *)
Definition deliver (handler : Mode -> Method) : Method := fun s =>
  handler (state_ s) s.

(** *** The transition as the specification words it *)

(** The part of a mode's construction that is its entry action: arming
    the countdown for a timeout-bearing mode, then the body of the mode's
    own constructor. *)
Definition entry_action (m : Mode) : Method :=
  match m with
  | AirQualityMode => skip
  | AirQualityThresholdMode =>
      InvokeAfter kThresholdModeTimeout ;; DisplayThreshold
  | AirQualityAlarmMode => StartMorseReadout true
  | MorseReadout => StartMorseReadout false
  | ProximityDemo => InvokeAfter kDemoModeTimeout
  | MorseCodeDemo =>
      InvokeAfter kDemoModeTimeout
      ;; on_led (LedOutputStateMachine.SetColor (Events.mkLedValue 0 255 255))
      ;; emit (Publish (Events.MorseEncodeRequest "PW" 0))
  | ColorRotationDemo => InvokeAfter kDemoModeTimeout
  end.

(** Resetting the output brightness to the default. *)
Definition reset_brightness : Method :=
  on_led (LedOutputStateMachine.SetBrightness kDefaultBrightness).

(** Section 4.2 of the specification, step by step and in its order:
    "(1) cancels the countdown timer unconditionally, (2) destroys the
    current mode value, (3) constructs the new mode value in the same
    storage (entry action runs here ...), (4) resets output brightness to
    the default, (5) logs the (old-name, new-name) pair". *)
Definition SetState_spec_order (m : Mode) : Method := fun s =>
  let old_state := name (state_ s) in
  (Cancel
   ;; (fun s1 => (s1, [Destroy (state_ s1)]))
   ;; (fun s1 => (with_state m s1, [Construct m]))
   ;; entry_action m
   ;; reset_brightness
   ;; LogStateChange old_state) s.

(** The order the constructors give: the brightness reset of [State]'s
    constructor comes first, the entry action after it. *)
Definition SetState_ctor_order (m : Mode) : Method := fun s =>
  let old_state := name (state_ s) in
  (Cancel
   ;; (fun s1 => (s1, [Destroy (state_ s1)]))
   ;; (fun s1 => (with_state m s1, [Construct m]))
   ;; reset_brightness
   ;; entry_action m
   ;; LogStateChange old_state) s.

(** *** Threshold adjustments in sequence *)

Inductive ThresholdOp : Type :=
| Increment (rearm : duration)
| Decrement (rearm : duration).

Definition adjust (o : ThresholdOp) : Method :=
  match o with
  | Increment d => IncrementThreshold d
  | Decrement d => DecrementThreshold d
  end.

Fixpoint adjust_all (os : list ThresholdOp) (s : t) : t :=
  match os with
  | [] => s
  | o :: os' => adjust_all os' (fst (adjust o s))
  end.

(** The seven values 0, 128, ..., 768. *)
Definition threshold_steps : list Z := [0; 128; 256; 384; 512; 640; 768].

(** Unsigned 16-bit wrap-around, the type of [current_threshold_]. *)
Definition wrap16 (v : Z) : Z := v mod 65536.

End StateManager.

(* ================================================================== *)
(** ** Blinky ([blinky.cc]) *)

Module Blinky.

(** [pw::Status]: the codes of the library, [OkStatus()] first. *)
Inductive Status : Type :=
| OkStatus
| Cancelled
| Unknown
| InvalidArgument
| DeadlineExceeded
| NotFound
| AlreadyExists
| PermissionDenied
| ResourceExhausted
| FailedPrecondition
| Aborted
| OutOfRange
| Unimplemented
| Internal
| Unavailable
| DataLoss
| Unauthenticated.

(** The members the functions below can reach: the monochrome LED (on or
    off), the polychrome LED, and whether [blink_task_] is registered. *)
Record t : Type := mk {
  monochrome_led_ : bool;
  polychrome_led_ : PolychromeLed.t;
  blink_task_ : bool
}.

(** Calls on the collaborators, in program order. *)
Inductive Effect : Type :=
| LogInfo (format : string) (args : list Z)
| MonochromeTurnOff
| MonochromeTurnOn
| WaitFor (interval : Z).

(** The effects that drive an LED. *)
Definition is_led_operation (e : Effect) : bool :=
  match e with
  | MonochromeTurnOff | MonochromeTurnOn => true
  | LogInfo _ _ | WaitFor _ => false
  end.

Definition with_monochrome (on : bool) (s : t) : t :=
  mk on (polychrome_led_ s) (blink_task_ s).

(** Unsigned 32-bit wrap-around, the type of [blinked]. *)
Definition wrap32 (v : Z) : Z := v mod 4294967296.

(** [Blinky::BlinkTwice]: two locals, one log line, [return OkStatus()];
    the rest of the body is commented out in the source. *)
Definition BlinkTwice (s : t) : Status * t * list Effect :=
  let num_toggles := 4 in
  let interval_ms := 1000 in
  (OkStatus, s,
   [LogInfo "Blinking %u times at a %ums interval"
      [num_toggles / 2; interval_ms]]).

(** One pass through the body of the loop of [BlinkLoop]: off, wait, on,
    wait. *)
Definition blink_pair (interval : Z) : list Effect :=
  [ LogInfo "LED blinking: OFF" []; MonochromeTurnOff; WaitFor interval;
    LogInfo "LED blinking: ON" []; MonochromeTurnOn; WaitFor interval ].

(** What follows the loop. *)
Definition blink_stop : list Effect :=
  [ MonochromeTurnOff; LogInfo "Stopped blinking" [] ].

(** The loop condition [blinked < blink_count || blink_count == 0]. *)
Definition loop_condition (blinked blink_count : Z) : bool :=
  (blinked <? blink_count) || (blink_count =? 0).

(** [Blinky::BlinkLoop] from the point where the loop condition is
    tested with the counter at [blinked].  One unit of fuel pays for one
    test of the condition; [None] is a run that has not returned within
    the fuel. *)
Fixpoint BlinkLoop_from (fuel : nat) (blink_count interval blinked : Z)
  (s : t) : option (Status * t * list Effect) :=
  match fuel with
  | O => None
  | S fuel' =>
      if loop_condition blinked blink_count then
        match BlinkLoop_from fuel' blink_count interval
                (wrap32 (blinked + 1)) (with_monochrome true s) with
        | Some (st, s', es) => Some (st, s', blink_pair interval ++ es)
        | None => None
        end
      else Some (OkStatus, with_monochrome false s, blink_stop)
  end.

(** [Blinky::BlinkLoop(cx, blink_count, interval)]: [blinked] starts
    at 0. *)
Definition BlinkLoop (fuel : nat) (blink_count interval : Z) (s : t)
  : option (Status * t * list Effect) :=
  BlinkLoop_from fuel blink_count interval 0 s.

(** [n] passes of the loop body. *)
Definition blink_pairs (n : nat) (interval : Z) : list Effect :=
  List.concat (repeat (blink_pair interval) n).

End Blinky.

(* ================================================================== *)
(** ** Concrete states used to run the definitions *)

Module Examples.

(** A driver showing dim red. *)
Definition dim_red_led : PolychromeLed.t :=
  PolychromeLed.mk (PolychromeLed.Rgb 255 0 0) 10.

(** The layer as its constructor leaves it over that driver. *)
Definition fresh_layer : LedOutputStateMachine.t :=
  LedOutputStateMachine.init dim_red_led 220.

(** The layer after the first [SetBrightness(kDefaultBrightness)]. *)
Definition started_layer : LedOutputStateMachine.t :=
  fst (LedOutputStateMachine.SetBrightness 220 fresh_layer).

(** A controller in a given mode: timer unarmed, no alarm, threshold 384,
    last score 512. *)
Definition manager_in (m : StateManager.Mode) : StateManager.t :=
  StateManager.mk started_layer m None false 384 512 "".

Definition blinky : Blinky.t :=
  Blinky.mk false dim_red_led false.

End Examples.

(* ================================================================== *)
(** ** Runs of the output layer and of the controller *)

Module LedRuns.

Import LedOutputStateMachine.

(** A sequence of member-function calls on the layer: the final state
    and all driver calls, in order. *)
Fixpoint run_all (ops : list Op) (s : t) : t * list PolychromeLed.Call :=
  match ops with
  | [] => (s, [])
  | o :: ops' =>
      let (s1, c1) := run o s in
      let (s2, c2) := run_all ops' s1 in
      (s2, c1 ++ c2)
  end.

(** The flag after a sequence of calls: the last [Override] or
    [EndOverride] decides, the setters keep it. *)
Fixpoint final_flag (ops : list Op) (flag : OutputState) : OutputState :=
  match ops with
  | [] => flag
  | OpOverride _ _ :: ops' => final_flag ops' kOverride
  | OpEndOverride :: ops' => final_flag ops' kPassthrough
  | OpSetColor _ :: ops' | OpSetBrightness _ :: ops' => final_flag ops' flag
  end.

(** The passthrough writes among a sequence of calls. *)
Fixpoint writes_of (ops : list Op) : list PassthroughWrite :=
  match ops with
  | [] => []
  | OpSetColor v :: ops' => WColor v :: writes_of ops'
  | OpSetBrightness v :: ops' => WBrightness v :: writes_of ops'
  | OpOverride _ _ :: ops' | OpEndOverride :: ops' => writes_of ops'
  end.

End LedRuns.

Module Controller.

Import StateManager.

(** The calls [Update] can make on the active mode: one per virtual
    member function of [State]. *)
Inductive Call : Type :=
| CallAlarmStateChanged (alarm : bool)
| CallButtonAReleased
| CallButtonBReleased
| CallButtonXReleased
| CallButtonYReleased
| CallProximityModeLedValue (value : Events.LedValue)
| CallAirQualityModeLedValue (value : Events.LedValue)
| CallColorRotationModeLedValue (value : Events.LedValue)
| CallMorseCodeEdge (value : Events.MorseCodeValue)
| CallDemoModeTimerExpired.

(** [state_.get().f(args)] for each of them. *)
Definition handle (c : Call) : Method :=
  match c with
  | CallAlarmStateChanged alarm =>
      deliver (fun m => AlarmStateChanged m alarm)
  | CallButtonAReleased => deliver ButtonAReleased
  | CallButtonBReleased => deliver ButtonBReleased
  | CallButtonXReleased => deliver ButtonXReleased
  | CallButtonYReleased => deliver ButtonYReleased
  | CallProximityModeLedValue v =>
      deliver (fun m => ProximityModeLedValue m v)
  | CallAirQualityModeLedValue v =>
      deliver (fun m => AirQualityModeLedValue m v)
  | CallColorRotationModeLedValue v =>
      deliver (fun m => ColorRotationModeLedValue m v)
  | CallMorseCodeEdge v => deliver (fun m => MorseCodeEdge m v)
  | CallDemoModeTimerExpired => deliver DemoModeTimerExpired
  end.

(** A sequence of such calls, one after the other. *)
Fixpoint handle_all (cs : list Call) (s : t) : t :=
  match cs with
  | [] => s
  | c :: cs' => handle_all cs' (fst (handle c s))
  end.

(** The countdown timer is set exactly for a timeout-bearing mode, with
    that mode's duration. *)
Definition timer_follows_mode (s : t) : Prop :=
  demo_mode_timer_ s = timeout_of (state_ s).

(** The modes that override [MorseCodeEdge]. *)
Definition handles_morse_edge (m : Mode) : bool :=
  match m with
  | AirQualityAlarmMode | MorseReadout | MorseCodeDemo => true
  | AirQualityMode | AirQualityThresholdMode | ProximityDemo
  | ColorRotationDemo => false
  end.

(** The stored brightness is the default, or 0 in a mode that follows
    morse edges. *)
Definition brightness_follows_mode (s : t) : Prop :=
  LedOutputStateMachine.brightness_ (led_ s) = kDefaultBrightness
  \/ (LedOutputStateMachine.brightness_ (led_ s) = 0
      /\ handles_morse_edge (state_ s) = true).

(** The stored colour. *)
Definition stored_colour (s : t) : Z * Z * Z :=
  (LedOutputStateMachine.red_ (led_ s),
   LedOutputStateMachine.green_ (led_ s),
   LedOutputStateMachine.blue_ (led_ s)).

(** In [MorseCodeDemo] the stored colour is cyan. *)
Definition cyan_in_morse_demo (s : t) : Prop :=
  state_ s = MorseCodeDemo -> stored_colour s = (0, 255, 255).

(** The calls that carry an LED value, and the modes that take them. *)
Definition takes_led_value (c : Call) (m : Mode) : bool :=
  match c, m with
  | CallProximityModeLedValue _, ProximityDemo => true
  | CallAirQualityModeLedValue _, (AirQualityMode | AirQualityAlarmMode) =>
      true
  | CallColorRotationModeLedValue _, ColorRotationDemo => true
  | _, _ => false
  end.

Definition led_value_of (c : Call) : option Events.LedValue :=
  match c with
  | CallProximityModeLedValue v | CallAirQualityModeLedValue v
  | CallColorRotationModeLedValue v => Some v
  | _ => None
  end.

(** Button releases that lead from a mode to [AirQualityMode]. *)
Definition way_home (m : Mode) : list Call :=
  match m with
  | AirQualityMode => []
  | MorseReadout => [CallButtonYReleased]
  | AirQualityThresholdMode | ProximityDemo | MorseCodeDemo
  | ColorRotationDemo => [CallButtonYReleased; CallButtonYReleased]
  | AirQualityAlarmMode =>
      [CallButtonAReleased; CallButtonYReleased; CallButtonYReleased]
  end.

(** Calls that lead from [AirQualityMode] to a mode. *)
Definition way_to (m : Mode) : list Call :=
  match m with
  | AirQualityMode => []
  | AirQualityThresholdMode => [CallButtonAReleased]
  | AirQualityAlarmMode => [CallAlarmStateChanged true]
  | MorseReadout => [CallButtonYReleased]
  | ProximityDemo => [CallButtonXReleased]
  | MorseCodeDemo => [CallButtonXReleased; CallButtonXReleased]
  | ColorRotationDemo =>
      [CallButtonXReleased; CallButtonXReleased; CallButtonXReleased]
  end.

End Controller.

(* ================================================================== *)
(** ** More of blinky *)

Module BlinkyCommands.

Import Blinky.

(** Calls of the command functions on their collaborators. *)
Inductive Effect : Type :=
| LogInfo (format : string) (args : list Z)
| Deregister
| SetCoro (blink_count interval : Z)
| Post
| MonochromeToggle
| MonochromeTurnOn
| MonochromeTurnOff.

Definition with_task (registered : bool) (s : t) : t :=
  mk (monochrome_led_ s) (polychrome_led_ s) registered.

(** [Blinky::Toggle]: deregister the blink task, log, toggle the LED. *)
Definition Toggle (s : t) : t * list Effect :=
  (with_monochrome (negb (monochrome_led_ s)) (with_task false s),
   [Deregister; LogInfo "Toggling LED" []; MonochromeToggle]).

(** [Blinky::SetLed]. *)
Definition SetLed (on : bool) (s : t) : t * list Effect :=
  if on then
    (with_monochrome true (with_task false s),
     [Deregister; LogInfo "Setting LED on" []; MonochromeTurnOn])
  else
    (with_monochrome false (with_task false s),
     [Deregister; LogInfo "Setting LED off" []; MonochromeTurnOff]).

(** [Blinky::Blink]: the log line depends on [blink_count == 0]; the
    task is deregistered, given the coroutine
    [BlinkLoop(cx, blink_count, interval)] and posted; [OkStatus].
    [for_at_least] is the clock's conversion of milliseconds to its own
    duration. *)
Definition Blink (for_at_least : Z -> Z) (blink_count interval_ms : Z)
  (s : t) : Status * t * list Effect :=
  (OkStatus, with_task true s,
   [ if blink_count =? 0
     then LogInfo "Blinking forever at a %ums interval" [interval_ms]
     else LogInfo "Blinking %u times at a %ums interval"
            [blink_count; interval_ms];
     Deregister;
     SetCoro blink_count (for_at_least interval_ms);
     Post ]).

(** [Blinky::IsIdle]: [!blink_task_.IsRegistered()]. *)
Definition IsIdle (s : t) : bool := negb (blink_task_ s).

(** The log line that announces an endless blink. *)
Definition announces_forever (e : Effect) : bool :=
  match e with
  | LogInfo format _ =>
      String.eqb format "Blinking forever at a %ums interval"
  | _ => false
  end.

(** The calls on the monochrome LED in a trace of [BlinkLoop]. *)
Definition led_operations (es : list Blinky.Effect) : list Blinky.Effect :=
  filter is_led_operation es.

(** The time a trace of [BlinkLoop] spends waiting. *)
Fixpoint total_wait (es : list Blinky.Effect) : Z :=
  match es with
  | [] => 0
  | WaitFor d :: es' => d + total_wait es'
  | _ :: es' => total_wait es'
  end.

End BlinkyCommands.

(* ================================================================== *)
(** ** The board support functions ([drivers/system.cc]) *)

Module System.

(** Calls on the SDK. *)
Inductive HwCall : Type :=
| gpio_init (pin : Z)
| gpio_set_dir (pin : Z) (out : bool)
| gpio_put (pin : Z) (value : Z)
| adc_init
| reset_usb_boot (gpio_activity_pin_mask disable_interface_mask : Z).

(** How a call ends: it returns, leaving the function-local static
    [initialized] at the given value, or it is still running when the
    bound on the depth of nested calls is used up. *)
Inductive Outcome : Type :=
| Returned (initialized : bool)
| StillRunning.

Section Board.

(** [PICO_DEFAULT_LED_PIN] and the two [RebootType] masks come from
    headers that are not among the sources. *)
Variable PICO_DEFAULT_LED_PIN : Z.
Variables kMassStorage kPicoboot : Z.

(** The body of [SystemSetLed], over the [SystemInit] it calls:
    [SystemInit(); gpio_put(PICO_DEFAULT_LED_PIN, enable ? 0 : 1);]. *)
Definition SystemSetLed_body
  (init : bool -> Outcome * list HwCall) (enable : bool) (initialized : bool)
  : Outcome * list HwCall :=
  match init initialized with
  | (Returned i, calls) =>
      (Returned i,
       calls ++ [gpio_put PICO_DEFAULT_LED_PIN (if enable then 0 else 1)])
  | (StillRunning, calls) => (StillRunning, calls)
  end.

(** [SystemInit], one unit of [depth] per activation.  The flag is set
    at the end of the guarded block, after [SystemSetLed(false)] has
    returned. *)
Fixpoint SystemInit (depth : nat) (initialized : bool)
  : Outcome * list HwCall :=
  match depth with
  | O => (StillRunning, [])
  | S depth' =>
      if negb initialized then
        match SystemSetLed_body (SystemInit depth') false initialized with
        | (Returned _, calls) =>
            (Returned true,
             [gpio_init PICO_DEFAULT_LED_PIN;
              gpio_set_dir PICO_DEFAULT_LED_PIN true]
             ++ calls ++ [adc_init])
        | (StillRunning, calls) =>
            (StillRunning,
             [gpio_init PICO_DEFAULT_LED_PIN;
              gpio_set_dir PICO_DEFAULT_LED_PIN true] ++ calls)
        end
      else (Returned initialized, [])
  end.

(** [SystemSetLed]. *)
Definition SystemSetLed (depth : nat) (enable : bool) (initialized : bool)
  : Outcome * list HwCall :=
  SystemSetLed_body (SystemInit depth) enable initialized.

(** [SystemReboot]: [SystemInit()], then the two mask tests and at most
    one [reset_usb_boot]. *)
Definition SystemReboot (depth : nat) (reboot_types : Z) (initialized : bool)
  : Outcome * list HwCall :=
  match SystemInit depth initialized with
  | (Returned i, calls) =>
      let mass_storage := negb (Z.land reboot_types kMassStorage =? 0) in
      let picoboot := negb (Z.land reboot_types kPicoboot =? 0) in
      (Returned i,
       calls ++
       (if mass_storage && picoboot then [reset_usb_boot 0 0]
        else if picoboot then [reset_usb_boot 0 1]
        else if mass_storage then [reset_usb_boot 0 2]
        else []))
  | (StillRunning, calls) => (StillRunning, calls)
  end.

(** The calls made once the recursion through [SystemSetLed] is [n]
    activations deep. *)
Definition init_prefix (n : nat) : list HwCall :=
  List.concat
    (repeat [gpio_init PICO_DEFAULT_LED_PIN;
             gpio_set_dir PICO_DEFAULT_LED_PIN true] n).

End Board.

(** The calls that only happen after [SystemInit] has returned or is
    about to. *)
Definition needs_init_done (c : HwCall) : bool :=
  match c with
  | gpio_put _ _ | adc_init | reset_usb_boot _ _ => true
  | gpio_init _ | gpio_set_dir _ _ => false
  end.

End System.

(* ================================================================== *)
(** * Properties of the output layer *)

Section OutputLayer.

Import LedOutputStateMachine.

Lemma UpdateLed_synced (s : t) : synced (fst (UpdateLed s)).
Proof.
  unfold synced, UpdateLed. destruct (state_ s) eqn:E; simpl.
  - reflexivity.
  - rewrite E. discriminate.
Qed.

Lemma run_synced (o : Op) (s : t) : synced (fst (run o s)).
Proof.
  destruct o; unfold run, EndOverride, SetColor, SetBrightness;
    try apply UpdateLed_synced.
  unfold synced, Override; simpl; discriminate.
Qed.

Lemma after_call_synced (s : t) : after_call s -> synced s.
Proof.
  intros (o & s0 & ->). apply run_synced.
Qed.

Lemma EndOverride_synced_fixpoint (s : t) :
  synced s -> state_ s = kPassthrough -> fst (EndOverride s) = s.
Proof.
  intros Hs Hp. specialize (Hs Hp).
  destruct s as [st br cr cg cb l]; simpl in *. subst st.
  unfold EndOverride, UpdateLed; simpl. rewrite Hs.
  reflexivity.
Qed.

(** Writes made in override state: the driver is not called, the flag
    stays, and the stored values follow the writes. *)
Lemma writes_during_override (ws : list PassthroughWrite) :
  forall s : t,
    state_ s = kOverride ->
    snd (writes ws s) = []
    /\ led_ (fst (writes ws s)) = led_ s
    /\ state_ (fst (writes ws s)) = kOverride
    /\ stored_values (fst (writes ws s)) = last_written ws (stored_values s).
Proof.
  induction ws as [| w ws IH]; intros s Hs.
  - simpl. auto.
  - simpl.
    assert (Hw : exists s1, write w s = (s1, []) /\ state_ s1 = kOverride
                            /\ led_ s1 = led_ s
                            /\ last_written (w :: ws) (stored_values s)
                               = last_written ws (stored_values s1)).
    { destruct s as [st br cr cg cb l]; simpl in Hs; subst st.
      destruct w as [v | v]; eexists; cbn; repeat split. }
    destruct Hw as (s1 & Hw & Hs1 & Hl & Hlast).
    rewrite Hw. destruct (IH s1 Hs1) as (Hc & Hled & Hst & Hval).
    destruct (writes ws s1) as [s2 c2]; simpl in *.
    subst c2. rewrite Hled, Hl, Hst, Hval, <- Hlast.
    repeat split.
Qed.

(** C6.  [SetColor] and [SetBrightness] always update the stored
    passthrough values and call the driver exactly when the layer is in
    passthrough state; [Override] switches to override state and shows
    the given values at once without touching the stored ones;
    [EndOverride] switches back to passthrough and shows the stored
    values again.  Hence the passthrough writes made between [Override]
    and [EndOverride] reach no driver call while the override lasts, are
    all remembered in the stored values, and are what the driver shows
    as soon as [EndOverride] returns. *)
Theorem output_layer_passthrough_and_override
  (s : t) (v : Events.LedValue) (br c ob : Z) (ws : list PassthroughWrite) :
  (* SetColor *)
  (stored_values (fst (SetColor v s))
     = (Events.r v, Events.g v, Events.b v, brightness_ s)
   /\ state_ (fst (SetColor v s)) = state_ s
   /\ snd (SetColor v s)
      = match state_ s with
        | kPassthrough =>
            [ PolychromeLed.CallSetColorRgb
                (Events.r v) (Events.g v) (Events.b v);
              PolychromeLed.CallSetBrightness (brightness_ s) ]
        | kOverride => []
        end
   /\ led_ (fst (SetColor v s))
      = match state_ s with
        | kPassthrough => stored (fst (SetColor v s))
        | kOverride => led_ s
        end)
  (* SetBrightness *)
  /\ (stored_values (fst (SetBrightness br s))
        = (red_ s, green_ s, blue_ s, br)
      /\ state_ (fst (SetBrightness br s)) = state_ s
      /\ snd (SetBrightness br s)
         = match state_ s with
           | kPassthrough =>
               [ PolychromeLed.CallSetColorRgb (red_ s) (green_ s) (blue_ s);
                 PolychromeLed.CallSetBrightness br ]
           | kOverride => []
           end
      /\ led_ (fst (SetBrightness br s))
         = match state_ s with
           | kPassthrough => stored (fst (SetBrightness br s))
           | kOverride => led_ s
           end)
  (* Override *)
  /\ (state_ (fst (Override c ob s)) = kOverride
      /\ stored_values (fst (Override c ob s)) = stored_values s
      /\ led_ (fst (Override c ob s))
         = PolychromeLed.mk (PolychromeLed.Hex c) ob
      /\ snd (Override c ob s)
         = [ PolychromeLed.CallSetColorHex c;
             PolychromeLed.CallSetBrightness ob ])
  (* EndOverride *)
  /\ (state_ (fst (EndOverride s)) = kPassthrough
      /\ stored_values (fst (EndOverride s)) = stored_values s
      /\ led_ (fst (EndOverride s)) = stored s
      /\ snd (EndOverride s)
         = [ PolychromeLed.CallSetColorRgb (red_ s) (green_ s) (blue_ s);
             PolychromeLed.CallSetBrightness (brightness_ s) ])
  (* writes between Override and EndOverride *)
  /\ (snd (writes ws (fst (Override c ob s))) = []
      /\ led_ (fst (writes ws (fst (Override c ob s))))
         = PolychromeLed.mk (PolychromeLed.Hex c) ob
      /\ state_ (fst (writes ws (fst (Override c ob s)))) = kOverride
      /\ stored_values (fst (writes ws (fst (Override c ob s))))
         = last_written ws (stored_values s)
      /\ stored_values
           (fst (EndOverride (fst (writes ws (fst (Override c ob s))))))
         = last_written ws (stored_values s)
      /\ led_ (fst (EndOverride (fst (writes ws (fst (Override c ob s))))))
         = stored (fst (writes ws (fst (Override c ob s))))).
Proof.
  split; [| split; [| split; [| split]]].
  - destruct s as [[|] b0 cr cg cb l]; cbn; repeat split.
  - destruct s as [[|] b0 cr cg cb l]; cbn; repeat split.
  - destruct s as [st b0 cr cg cb l]; cbn; repeat split.
  - destruct s as [st b0 cr cg cb l]; cbn; repeat split.
  - assert (Ho : state_ (fst (Override c ob s)) = kOverride) by reflexivity.
    destruct (writes_during_override ws _ Ho) as (Hc & Hl & Hst & Hv).
    set (s2 := fst (writes ws (fst (Override c ob s)))) in *.
    repeat split; assumption.
Qed.

(** C8, the claim as worded fails: the layer right after its
    constructor is in passthrough state while the driver still shows what
    it showed before (here dim red at brightness 10); [EndOverride] makes
    it show the stored black at brightness 220, so the values shown
    change and the call is no no-op there. *)
Lemma EndOverride_on_fresh_layer :
  state_ Examples.fresh_layer = kPassthrough
  /\ led_ Examples.fresh_layer
     = PolychromeLed.mk (PolychromeLed.Rgb 255 0 0) 10
  /\ led_ (fst (EndOverride Examples.fresh_layer))
     = PolychromeLed.mk (PolychromeLed.Rgb 0 0 0) 220
  /\ fst (EndOverride Examples.fresh_layer) <> Examples.fresh_layer
  /\ ~ (forall s : t, state_ s = kPassthrough -> fst (EndOverride s) = s).
Proof.
  assert (Hne : fst (EndOverride Examples.fresh_layer)
                <> Examples.fresh_layer)
    by (intros H; apply (f_equal led_) in H; vm_compute in H;
        discriminate H).
  repeat split; try exact Hne.
  intros H. apply Hne. apply H. reflexivity.
Qed.

(** C8, as amended.  In passthrough state [EndOverride] leaves the flag
    and the stored colour and brightness as they are and has the driver
    show the stored values; whenever the driver shows them already, as
    it does in every passthrough state a member function of the layer
    has returned in, the whole output state (flag, stored colour, stored
    brightness, values shown) is unchanged, and a second [EndOverride]
    never changes anything.  [Cancel] on an unarmed countdown timer
    changes nothing: the timer stays unarmed and the controller is as
    before. *)
Theorem EndOverride_passthrough_and_Cancel_unarmed_noop
  (s : t) (m : StateManager.t) :
  state_ s = kPassthrough ->
  StateManager.demo_mode_timer_ m = None ->
  (state_ (fst (EndOverride s)) = state_ s
   /\ stored_values (fst (EndOverride s)) = stored_values s
   /\ led_ (fst (EndOverride s)) = stored s)
  /\ (led_ s = stored s -> fst (EndOverride s) = s)
  /\ (after_call s -> fst (EndOverride s) = s)
  /\ fst (EndOverride (fst (EndOverride s))) = fst (EndOverride s)
  /\ StateManager.timer_Cancel None = None
  /\ fst (StateManager.Cancel m) = m.
Proof.
  intros Hp Ht.
  split; [| split; [| split; [| split; [| split]]]].
  - destruct s; cbn in *; subst; repeat split.
  - intros Hs. apply EndOverride_synced_fixpoint; [intros _ |]; assumption.
  - intros Hr.
    apply EndOverride_synced_fixpoint; [apply after_call_synced |]; assumption.
  - reflexivity.
  - reflexivity.
  - destruct m; cbn in *. subst. reflexivity.
Qed.

(** The theorem above at the layer right after its first call and a
    controller whose timer is unarmed. *)
Lemma EndOverride_passthrough_and_Cancel_unarmed_noop_witness :
  fst (EndOverride Examples.started_layer) = Examples.started_layer
  /\ fst (StateManager.Cancel
            (Examples.manager_in StateManager.AirQualityMode))
     = Examples.manager_in StateManager.AirQualityMode.
Proof.
  destruct (EndOverride_passthrough_and_Cancel_unarmed_noop
              Examples.started_layer
              (Examples.manager_in StateManager.AirQualityMode)
              eq_refl eq_refl)
    as (_ & _ & Hcall & _ & _ & Hcancel).
  split; [| exact Hcancel].
  apply Hcall.
  exists (OpSetBrightness 220), Examples.fresh_layer. reflexivity.
Defined.

End OutputLayer.

(* ================================================================== *)
(** * Properties of the mode controller *)

Section ModeController.

Import StateManager.

#[local] Arguments render : simpl never.

(** Splits a controller state down to the flag of its output layer, so
    that every member function computes. *)
Ltac open_manager s :=
  let st := fresh "st" in
  let tm := fresh "tm" in
  destruct s as [[st ? ? ? ? ?] ? tm ? ? ? ?]; destruct st; destruct tm.

Lemma seq_fst (a b : Method) (s : t) :
  fst ((a ;; b) s) = fst (b (fst (a s))).
Proof.
  unfold seq. destruct (a s) as [s1 e1]. simpl.
  destruct (b s1) as [s2 e2]. reflexivity.
Qed.

Lemma seq_snd (a b : Method) (s : t) :
  snd ((a ;; b) s) = snd (a s) ++ snd (b (fst (a s))).
Proof.
  unfold seq. destruct (a s) as [s1 e1]. simpl.
  destruct (b s1) as [s2 e2]. reflexivity.
Qed.

(** The constructor of a mode is the brightness reset of [State]
    followed by the mode's entry action. *)
Lemma ctor_reset_then_entry (m : Mode) (s : t) :
  ctor m s = (reset_brightness ;; entry_action m) s.
Proof.
  open_manager s; destruct m; reflexivity.
Qed.

Lemma SetState_state (m : Mode) (s : t) : state_ (fst (SetState m s)) = m.
Proof.
  open_manager s; destruct m; reflexivity.
Qed.

Lemma SetState_timer (m : Mode) (s : t) :
  demo_mode_timer_ (fst (SetState m s)) = timeout_of m.
Proof.
  open_manager s; destruct m; reflexivity.
Qed.

Lemma SetState_keeps_persistent_fields (m : Mode) (s : t) :
  alarmed_ (fst (SetState m s)) = alarmed_ s
  /\ current_threshold_ (fst (SetState m s)) = current_threshold_ s
  /\ last_air_quality_score_ (fst (SetState m s)) = last_air_quality_score_ s.
Proof.
  open_manager s; destruct m; repeat split.
Qed.

(** C1, as amended.  For every mode [m] and every state, [SetState<m>()]
    (1) cancels the countdown timer, whatever its state, (2) destroys
    the current mode value, (3) constructs [m] in the same slot, the
    construction first resetting the output brightness to the default
    ([State]'s constructor) and then running the entry action (arming
    the timer when [m] is timeout-bearing, then the body of [m]'s own
    constructor), and (4) logs the pair of the old and the new name.
    Afterwards the active mode is [m], and the timer is armed exactly
    when [m] is one of [AirQualityThresholdMode], [ProximityDemo],
    [MorseCodeDemo], [ColorRotationDemo]. *)
Theorem SetState_sequence_and_result (m : Mode) (s : t) :
  SetState m s = SetState_ctor_order m s
  /\ snd (SetState m s)
     = [TimerCancel; Destroy (state_ s); Construct m]
       ++ snd ((reset_brightness ;; entry_action m)
                 (with_state m (with_timer None s)))
       ++ [Log (name (state_ s)) (name m)]
  /\ state_ (fst (SetState m s)) = m
  /\ LedOutputStateMachine.brightness_ (led_ (fst (SetState m s)))
     = kDefaultBrightness
  /\ demo_mode_timer_ (fst (SetState m s)) = timeout_of m
  /\ ((exists d, demo_mode_timer_ (fst (SetState m s)) = Some d)
      <-> (m = AirQualityThresholdMode \/ m = ProximityDemo
           \/ m = MorseCodeDemo \/ m = ColorRotationDemo)).
Proof.
  split; [| split; [| split; [| split; [| split]]]].
  - open_manager s; destruct m; reflexivity.
  - open_manager s; destruct m; reflexivity.
  - apply SetState_state.
  - open_manager s; destruct m; reflexivity.
  - apply SetState_timer.
  - rewrite SetState_timer. split.
    + intros [d Hd]. destruct m; try discriminate; auto.
    + intros [H | [H | [H | H]]]; subst m; eexists; reflexivity.
Qed.

(** C1, the claim as worded fails: entering [ProximityDemo] from
    [AirQualityMode], the brightness reset reaches the driver before the
    timer is armed, whereas the worded order arms the timer (entry action)
    before the brightness reset. *)
Lemma SetState_spec_order_counterexample :
  snd (SetState ProximityDemo (Examples.manager_in AirQualityMode))
  = [ TimerCancel; Destroy AirQualityMode; Construct ProximityDemo;
      Led (PolychromeLed.CallSetColorRgb 0 0 0);
      Led (PolychromeLed.CallSetBrightness 220);
      TimerInvokeAfter 30;
      Log "AirQualityMode" "ProximityDemo" ]
  /\ snd (SetState_spec_order ProximityDemo
            (Examples.manager_in AirQualityMode))
     = [ TimerCancel; Destroy AirQualityMode; Construct ProximityDemo;
         TimerInvokeAfter 30;
         Led (PolychromeLed.CallSetColorRgb 0 0 0);
         Led (PolychromeLed.CallSetBrightness 220);
         Log "AirQualityMode" "ProximityDemo" ]
  /\ ~ (forall (m : Mode) (s : t), SetState m s = SetState_spec_order m s).
Proof.
  split; [reflexivity | split; [reflexivity |]].
  intro H.
  specialize (H ProximityDemo (Examples.manager_in AirQualityMode)).
  apply (f_equal snd) in H. vm_compute in H. discriminate H.
Qed.

(** [State::AlarmStateChanged] with a flag that differs from the stored
    one. *)
Lemma State_AlarmStateChanged_changed (a : bool) (s : t) :
  alarmed_ s <> a ->
  State_AlarmStateChanged a s
  = ((if a then SetState AirQualityAlarmMode else SetState AirQualityMode)
       (with_alarmed a s)).
Proof.
  intros Hne. unfold State_AlarmStateChanged.
  destruct (Bool.eqb (alarmed_ s) a) eqn:E.
  - apply eqb_prop in E. contradiction.
  - unfold seq. destruct a;
      match goal with
      | |- context [SetState ?m ?x] => destruct (SetState m x)
      end; reflexivity.
Qed.

(** C3.  Whatever mode is active, the handler that an
    alarm-state-changed event reaches is [State::AlarmStateChanged] (no
    mode overrides it).  Delivered with a flag that differs from the
    stored [alarmed_], it stores the flag and leaves the controller in
    [AirQualityAlarmMode] when the flag is true and in [AirQualityMode]
    when it is false; delivered with the stored flag, it changes nothing
    and makes no call at all. *)
Theorem AlarmStateChanged_forces_mode (s : t) (a : bool) :
  (forall m : Mode, AlarmStateChanged m a = State_AlarmStateChanged a)
  /\ (alarmed_ s <> a ->
      alarmed_ (fst (deliver (fun m => AlarmStateChanged m a) s)) = a
      /\ state_ (fst (deliver (fun m => AlarmStateChanged m a) s))
         = (if a then AirQualityAlarmMode else AirQualityMode))
  /\ (alarmed_ s = a ->
      deliver (fun m => AlarmStateChanged m a) s = (s, [])).
Proof.
  assert (Hall : forall m, AlarmStateChanged m a = State_AlarmStateChanged a)
    by (intros m; destruct m; reflexivity).
  split; [exact Hall | split].
  - intros Hne. unfold deliver. rewrite Hall.
    rewrite (State_AlarmStateChanged_changed a s Hne).
    destruct a.
    + split; [| apply SetState_state].
      destruct (SetState_keeps_persistent_fields
                  AirQualityAlarmMode (with_alarmed true s)) as (-> & _).
      destruct s; reflexivity.
    + split; [| apply SetState_state].
      destruct (SetState_keeps_persistent_fields
                  AirQualityMode (with_alarmed false s)) as (-> & _).
      destruct s; reflexivity.
  - intros Heq. unfold deliver. rewrite Hall.
    unfold State_AlarmStateChanged. rewrite Heq, eqb_reflx. reflexivity.
Qed.

(** The theorem above in [ColorRotationDemo] with no alarm stored: the
    alarm raised forces [AirQualityAlarmMode]; the alarm "cleared" again
    is the stored flag and does nothing. *)
Lemma AlarmStateChanged_forces_mode_witness :
  (alarmed_ (fst (deliver (fun m => AlarmStateChanged m true)
                    (Examples.manager_in ColorRotationDemo))) = true
   /\ state_ (fst (deliver (fun m => AlarmStateChanged m true)
                     (Examples.manager_in ColorRotationDemo)))
      = AirQualityAlarmMode)
  /\ deliver (fun m => AlarmStateChanged m false)
       (Examples.manager_in ColorRotationDemo)
     = (Examples.manager_in ColorRotationDemo, []).
Proof.
  split.
  - apply (AlarmStateChanged_forces_mode
             (Examples.manager_in ColorRotationDemo) true).
    discriminate.
  - apply (AlarmStateChanged_forces_mode
             (Examples.manager_in ColorRotationDemo) false).
    reflexivity.
Defined.

(** C5.  The four modes that derive from [TimeoutState] are
    [AirQualityThresholdMode], with 3 seconds, and [ProximityDemo],
    [MorseCodeDemo], [ColorRotationDemo], with 30 seconds.  Constructing
    such a mode arms the countdown timer for that duration; while it is
    active, a button-Y release leads to [MorseReadout] and the expiry of
    the timer leads to [AirQualityMode] (none of the four overrides
    either handler).  In the three other modes the expiry of the timer
    changes nothing and makes no call. *)
Theorem timeout_modes_arm_and_return (m : Mode) (s : t) :
  (timeout_of AirQualityThresholdMode = Some 3
   /\ timeout_of ProximityDemo = Some 30
   /\ timeout_of MorseCodeDemo = Some 30
   /\ timeout_of ColorRotationDemo = Some 30
   /\ timeout_of AirQualityMode = None
   /\ timeout_of AirQualityAlarmMode = None
   /\ timeout_of MorseReadout = None)
  /\ (forall d : duration,
        timeout_of m = Some d ->
        demo_mode_timer_ (fst (ctor m s)) = Some d
        /\ In (TimerInvokeAfter d) (snd (ctor m s))
        /\ ButtonYReleased m = TimeoutState_ButtonYReleased
        /\ DemoModeTimerExpired m = TimeoutState_DemoModeTimerExpired
        /\ (state_ s = m ->
            state_ (fst (deliver ButtonYReleased s)) = MorseReadout
            /\ state_ (fst (deliver DemoModeTimerExpired s))
               = AirQualityMode))
  /\ (timeout_of m = None ->
      state_ s = m ->
      deliver DemoModeTimerExpired s = (s, [])).
Proof.
  split; [repeat split | split].
  - intros d Hd.
    assert (Hy : ButtonYReleased m = TimeoutState_ButtonYReleased)
      by (destruct m; try discriminate; reflexivity).
    assert (Ht : DemoModeTimerExpired m = TimeoutState_DemoModeTimerExpired)
      by (destruct m; try discriminate; reflexivity).
    split; [| split; [| split; [exact Hy | split; [exact Ht |]]]].
    + open_manager s; destruct m; inversion Hd; reflexivity.
    + open_manager s; destruct m; inversion Hd; cbn; auto.
    + intros Hm. unfold deliver. rewrite Hm, Hy, Ht.
      split; apply SetState_state.
  - intros Hn Hm. unfold deliver. rewrite Hm.
    destruct m; try discriminate; reflexivity.
Qed.

(** The theorem above at [ProximityDemo] (30 seconds) and at
    [MorseReadout] (no timeout). *)
Lemma timeout_modes_arm_and_return_witness :
  (demo_mode_timer_
     (fst (ctor ProximityDemo (Examples.manager_in ProximityDemo))) = Some 30
   /\ state_ (fst (deliver ButtonYReleased
                     (Examples.manager_in ProximityDemo))) = MorseReadout
   /\ state_ (fst (deliver DemoModeTimerExpired
                     (Examples.manager_in ProximityDemo))) = AirQualityMode)
  /\ deliver DemoModeTimerExpired (Examples.manager_in MorseReadout)
     = (Examples.manager_in MorseReadout, []).
Proof.
  destruct (timeout_modes_arm_and_return
              ProximityDemo (Examples.manager_in ProximityDemo))
    as (_ & Harm & _).
  destruct (Harm 30 eq_refl) as (Ht & _ & _ & _ & Hgo).
  destruct (Hgo eq_refl) as (Hy & He).
  destruct (timeout_modes_arm_and_return
              MorseReadout (Examples.manager_in MorseReadout))
    as (_ & _ & Hnone).
  exact (conj (conj Ht (conj Hy He)) (Hnone eq_refl eq_refl)).
Defined.

(** C7.  From [ProximityDemo], a button-X release leads to
    [MorseCodeDemo], the next one to [ColorRotationDemo], and the third
    one back to [ProximityDemo]. *)
Theorem ButtonX_demo_cycle (s : t) :
  state_ s = ProximityDemo ->
  state_ (fst (deliver ButtonXReleased s)) = MorseCodeDemo
  /\ state_ (fst (deliver ButtonXReleased
                    (fst (deliver ButtonXReleased s))))
     = ColorRotationDemo
  /\ state_ (fst (deliver ButtonXReleased
                    (fst (deliver ButtonXReleased
                            (fst (deliver ButtonXReleased s))))))
     = ProximityDemo.
Proof.
  intros Hs.
  assert (H1 : state_ (fst (deliver ButtonXReleased s)) = MorseCodeDemo).
  { unfold deliver. rewrite Hs. apply SetState_state. }
  assert (H2 : state_ (fst (deliver ButtonXReleased
                              (fst (deliver ButtonXReleased s))))
               = ColorRotationDemo).
  { unfold deliver at 1. rewrite H1. apply SetState_state. }
  split; [exact H1 | split; [exact H2 |]].
  unfold deliver at 1. rewrite H2. apply SetState_state.
Qed.

(** The theorem above from a controller in [ProximityDemo]. *)
Lemma ButtonX_demo_cycle_witness :
  state_ (fst (deliver ButtonXReleased
                 (fst (deliver ButtonXReleased
                         (fst (deliver ButtonXReleased
                                 (Examples.manager_in ProximityDemo)))))))
  = ProximityDemo.
Proof.
  apply (ButtonX_demo_cycle (Examples.manager_in ProximityDemo)).
  reflexivity.
Defined.

End ModeController.

(* ================================================================== *)
(** * The threshold controller *)

Section Threshold.

Import StateManager.

#[local] Arguments render : simpl never.

Lemma IncrementThreshold_fst (d : duration) (s : t) :
  fst (IncrementThreshold d s)
  = with_timer (Some d)
      (with_string
         (render (clamp 0 kMaxThreshold
                    (current_threshold_ s + kThresholdIncrement)))
         (with_threshold
            (clamp 0 kMaxThreshold
               (current_threshold_ s + kThresholdIncrement)) s)).
Proof. reflexivity. Qed.

Lemma DecrementThreshold_fst (d : duration) (s : t) :
  fst (DecrementThreshold d s)
  = with_timer (Some d)
      (with_string
         (render (clamp 0 kMaxThreshold
                    (current_threshold_ s - kThresholdIncrement)))
         (with_threshold
            (clamp 0 kMaxThreshold
               (current_threshold_ s - kThresholdIncrement)) s)).
Proof. reflexivity. Qed.

Lemma on_steps_iff (v : Z) :
  In v threshold_steps <-> (0 <= v <= 768 /\ v mod 128 = 0).
Proof.
  unfold threshold_steps. simpl. split.
  - intros H.
    repeat (destruct H as [<- | H]; [split; [lia | reflexivity] |]).
    contradiction.
  - intros [Hr Hm].
    assert (Hv : v = 128 * (v / 128)) by (rewrite (Z.div_mod v 128) at 1; lia).
    assert (0 <= v / 128 <= 6)
      by (split; [apply Z.div_pos; lia | apply Z.div_le_upper_bound; lia]).
    assert (Hq : v / 128 = 0 \/ v / 128 = 1 \/ v / 128 = 2 \/ v / 128 = 3
                 \/ v / 128 = 4 \/ v / 128 = 5 \/ v / 128 = 6) by lia.
    repeat (destruct Hq as [Hq | Hq]; [rewrite Hq in Hv; subst v; tauto |]).
    rewrite Hq in Hv; subst v; tauto.
Qed.

Lemma adjust_on_steps (o : ThresholdOp) (s : t) :
  In (current_threshold_ s) threshold_steps ->
  In (current_threshold_ (fst (adjust o s))) threshold_steps.
Proof.
  intros H. destruct s as [l md tm al th sc str]. simpl in H.
  repeat (destruct H as [<- | H];
          [destruct o; vm_compute; tauto |]).
  contradiction.
Qed.

Lemma adjust_all_on_steps (os : list ThresholdOp) :
  forall s : t,
    In (current_threshold_ s) threshold_steps ->
    In (current_threshold_ (adjust_all os s)) threshold_steps.
Proof.
  induction os as [| o os IH]; intros s H; simpl.
  - exact H.
  - apply IH. apply adjust_on_steps. exact H.
Qed.

(** C2.  With [current_threshold_] on one of the steps 0, 128, ..., 768,
    any finite run of increments and decrements leaves it on one of
    them.  One increment gives [min (v + 128) 768], one decrement
    [max (v - 128) 0]; the value moves in the asked direction or stays,
    and fits 16 bits, so it does not wrap; at 768 an increment and at 0 a
    decrement leave the value as it is; each call renders the new value
    into the display string and arms the countdown timer with the given
    duration. *)
Theorem threshold_stays_on_steps
  (s : t) (os : list ThresholdOp) (d : duration) :
  In (current_threshold_ s) threshold_steps ->
  In (current_threshold_ (adjust_all os s)) threshold_steps
  /\ (current_threshold_ (fst (IncrementThreshold d s))
        = Z.min (current_threshold_ s + 128) 768
      /\ current_threshold_ s
         <= current_threshold_ (fst (IncrementThreshold d s)) <= 768
      /\ wrap16 (current_threshold_ (fst (IncrementThreshold d s)))
         = current_threshold_ (fst (IncrementThreshold d s))
      /\ (current_threshold_ s = 768 ->
          current_threshold_ (fst (IncrementThreshold d s)) = 768)
      /\ air_quality_score_string_ (fst (IncrementThreshold d s))
         = render (current_threshold_ (fst (IncrementThreshold d s)))
      /\ demo_mode_timer_ (fst (IncrementThreshold d s)) = Some d
      /\ snd (IncrementThreshold d s) = [TimerInvokeAfter d])
  /\ (current_threshold_ (fst (DecrementThreshold d s))
        = Z.max (current_threshold_ s - 128) 0
      /\ 0 <= current_threshold_ (fst (DecrementThreshold d s))
         <= current_threshold_ s
      /\ wrap16 (current_threshold_ (fst (DecrementThreshold d s)))
         = current_threshold_ (fst (DecrementThreshold d s))
      /\ (current_threshold_ s = 0 ->
          current_threshold_ (fst (DecrementThreshold d s)) = 0)
      /\ air_quality_score_string_ (fst (DecrementThreshold d s))
         = render (current_threshold_ (fst (DecrementThreshold d s)))
      /\ demo_mode_timer_ (fst (DecrementThreshold d s)) = Some d
      /\ snd (DecrementThreshold d s) = [TimerInvokeAfter d]).
Proof.
  intros H. split; [apply adjust_all_on_steps; exact H |].
  apply on_steps_iff in H. destruct H as [Hr _].
  rewrite IncrementThreshold_fst, DecrementThreshold_fst.
  destruct s as [l md tm al th sc str]; simpl in *.
  unfold clamp, kMaxThreshold, kThresholdIncrement, wrap16.
  split.
  - repeat split; try lia.
    rewrite Z.mod_small; lia.
  - repeat split; try lia.
    rewrite Z.mod_small; lia.
Qed.

(** The theorem above from the threshold 384: an increment, four more,
    and a decrement. *)
Lemma threshold_stays_on_steps_witness :
  In (current_threshold_
        (adjust_all
           [Increment 3; Increment 3; Increment 3; Increment 3;
            Increment 3; Decrement 3]
           (Examples.manager_in AirQualityThresholdMode)))
     threshold_steps.
Proof.
  apply (threshold_stays_on_steps
           (Examples.manager_in AirQualityThresholdMode)
           [Increment 3; Increment 3; Increment 3; Increment 3;
            Increment 3; Decrement 3] 3).
  vm_compute. tauto.
Defined.

End Threshold.

(* ================================================================== *)
(** * The event type *)

Section EventKinds.

Import Events.


End EventKinds.

(* ================================================================== *)
(** * Blinky *)

Section BlinkyLoop.

Import Blinky.

(** C9.  [BlinkTwice] returns [OkStatus] with the [Blinky] object as it
    found it, in every state; the one call it makes is the log line, and
    none of its calls drives an LED. *)
Theorem BlinkTwice_only_logs (s : t) :
  BlinkTwice s
  = (OkStatus, s, [LogInfo "Blinking %u times at a %ums interval" [2; 1000]])
  /\ fst (fst (BlinkTwice s)) = OkStatus
  /\ snd (fst (BlinkTwice s)) = s
  /\ (forall e : Effect,
        In e (snd (BlinkTwice s)) -> is_led_operation e = false).
Proof.
  repeat split.
  intros e [<- | []]. reflexivity.
Qed.

(** With [blink_count = 0] the loop condition holds at every counter
    value, also after [blinked] has wrapped: no amount of fuel lets the
    run return. *)
Lemma BlinkLoop_from_zero_never_returns (fuel : nat) :
  forall (interval blinked : Z) (s : t),
    BlinkLoop_from fuel 0 interval blinked s = None.
Proof.
  induction fuel as [| fuel IH]; intros interval blinked s; simpl.
  - reflexivity.
  - unfold loop_condition. rewrite Z.eqb_refl, orb_true_r.
    rewrite IH. reflexivity.
Qed.

(** With [blink_count > 0], [n] passes away from the exit the run makes
    exactly [n] passes, turns the LED off and returns. *)
Lemma BlinkLoop_from_counts (n : nat) :
  forall (fuel : nat) (blink_count interval blinked : Z) (s : t),
    0 < blink_count < 4294967296 ->
    0 <= blinked ->
    blinked + Z.of_nat n = blink_count ->
    (n < fuel)%nat ->
    BlinkLoop_from fuel blink_count interval blinked s
    = Some (OkStatus, with_monochrome false s,
            blink_pairs n interval ++ blink_stop).
Proof.
  induction n as [| n IH]; intros fuel bc interval blinked s Hbc Hb Hn Hf.
  - destruct fuel as [| fuel]; [lia |]. simpl.
    unfold loop_condition.
    replace (blinked <? bc) with false by (symmetry; apply Z.ltb_ge; lia).
    replace (bc =? 0) with false by (symmetry; apply Z.eqb_neq; lia).
    reflexivity.
  - destruct fuel as [| fuel]; [lia |]. simpl BlinkLoop_from.
    unfold loop_condition.
    replace (blinked <? bc) with true by (symmetry; apply Z.ltb_lt; lia).
    simpl orb.
    assert (Hw : wrap32 (blinked + 1) = blinked + 1)
      by (unfold wrap32; apply Z.mod_small; lia).
    rewrite Hw.
    rewrite (IH fuel bc interval (blinked + 1) (with_monochrome true s));
      try lia.
    reflexivity.
Qed.

(** C10.  For a 32-bit [blink_count], [BlinkLoop] returns exactly when
    [blink_count > 0].  Then, given fuel for its [blink_count + 1] tests
    of the loop condition, it makes exactly [blink_count] passes, each
    one logging, calling [TurnOff] on the monochrome LED, waiting for
    [interval], logging, calling [TurnOn] and waiting for [interval]
    again; after the last pass it calls [TurnOff] once more, logs that
    it stopped and returns [OkStatus], leaving the monochrome LED off
    and the rest of the object as it was.  With [blink_count = 0] it has
    not returned after any number of passes. *)
Theorem BlinkLoop_returns_iff_positive
  (blink_count interval : Z) (s : t) :
  0 <= blink_count < 4294967296 ->
  ((exists (fuel : nat) (r : Status * t * list Effect),
       BlinkLoop fuel blink_count interval s = Some r)
   <-> 0 < blink_count)
  /\ (0 < blink_count ->
      forall fuel : nat,
        (Z.to_nat blink_count < fuel)%nat ->
        BlinkLoop fuel blink_count interval s
        = Some (OkStatus,
                mk false (polychrome_led_ s) (blink_task_ s),
                List.concat
                  (repeat
                     [ LogInfo "LED blinking: OFF" []; MonochromeTurnOff;
                       WaitFor interval;
                       LogInfo "LED blinking: ON" []; MonochromeTurnOn;
                       WaitFor interval ]
                     (Z.to_nat blink_count))
                ++ [ MonochromeTurnOff; LogInfo "Stopped blinking" [] ]))
  /\ (blink_count = 0 ->
      forall fuel : nat, BlinkLoop fuel blink_count interval s = None).
Proof.
  intros Hr.
  assert (Hpos : 0 < blink_count ->
                 forall fuel : nat,
                   (Z.to_nat blink_count < fuel)%nat ->
                   BlinkLoop fuel blink_count interval s
                   = Some (OkStatus, with_monochrome false s,
                           blink_pairs (Z.to_nat blink_count) interval
                           ++ blink_stop)).
  { intros Hp fuel Hf. unfold BlinkLoop.
    apply BlinkLoop_from_counts; try lia. }
  assert (Hzero : blink_count = 0 ->
                  forall fuel : nat,
                    BlinkLoop fuel blink_count interval s = None).
  { intros -> fuel. apply BlinkLoop_from_zero_never_returns. }
  split; [| split].
  - split.
    + intros (fuel & r & Hrun).
      destruct (Z.eq_dec blink_count 0) as [Hz | Hz]; [| lia].
      rewrite (Hzero Hz fuel) in Hrun. discriminate Hrun.
    + intros Hp. exists (S (Z.to_nat blink_count)). eexists.
      apply Hpos; [exact Hp | lia].
  - exact Hpos.
  - exact Hzero.
Qed.

(** The theorem above at [blink_count = 2]: three tests of the
    condition, two passes, LED off, [OkStatus]. *)
Lemma BlinkLoop_returns_iff_positive_witness :
  BlinkLoop 3 2 500 Examples.blinky
  = Some (OkStatus,
          mk false (polychrome_led_ Examples.blinky)
            (blink_task_ Examples.blinky),
          [ LogInfo "LED blinking: OFF" []; MonochromeTurnOff; WaitFor 500;
            LogInfo "LED blinking: ON" []; MonochromeTurnOn; WaitFor 500;
            LogInfo "LED blinking: OFF" []; MonochromeTurnOff; WaitFor 500;
            LogInfo "LED blinking: ON" []; MonochromeTurnOn; WaitFor 500;
            MonochromeTurnOff; LogInfo "Stopped blinking" [] ]).
Proof.
  destruct (BlinkLoop_returns_iff_positive 2 500 Examples.blinky)
    as (_ & Hpos & _); [lia |].
  apply (Hpos ltac:(lia) 3%nat). vm_compute. lia.
Defined.

End BlinkyLoop.

(* ================================================================== *)
(** * Further properties of the output layer *)

Section OutputLayerRuns.

Import LedOutputStateMachine LedRuns.

Lemma layer_ext (a b : t) :
  state_ a = state_ b ->
  stored_values a = stored_values b ->
  led_ a = led_ b ->
  a = b.
Proof.
  destruct a, b; unfold stored_values; simpl.
  intros -> Hv ->. inversion Hv. reflexivity.
Qed.

Lemma stored_of_values (a b : t) :
  stored_values a = stored_values b -> stored a = stored b.
Proof.
  unfold stored_values, stored. intros H. inversion H. reflexivity.
Qed.

Lemma run_all_synced (ops : list Op) :
  forall s : t, synced s -> synced (fst (run_all ops s)).
Proof.
  induction ops as [| o ops IH]; intros s Hs; simpl.
  - exact Hs.
  - pose proof (run_synced o s) as H1.
    destruct (run o s) as [s1 c1]; simpl in H1.
    specialize (IH s1 H1).
    destruct (run_all ops s1) as [s2 c2]. exact IH.
Qed.

Lemma run_flag_and_values (o : Op) (s : t) :
  state_ (fst (run o s)) = final_flag [o] (state_ s)
  /\ stored_values (fst (run o s))
     = last_written (writes_of [o]) (stored_values s).
Proof.
  destruct s as [[|] br cr cg cb l]; destruct o; split; reflexivity.
Qed.

(** X1.  After any sequence of calls on the layer, from any state: the
    flag is the one the last [Override] or [EndOverride] of the sequence
    sets (the initial flag when there is neither); the stored colour and
    brightness are those last written by the [SetColor] and
    [SetBrightness] calls of the sequence, whatever overrides came in
    between; and, the sequence not being empty, in passthrough the
    driver shows the stored values. *)
Theorem layer_run_summary (ops : list Op) (s : t) :
  state_ (fst (run_all ops s)) = final_flag ops (state_ s)
  /\ stored_values (fst (run_all ops s))
     = last_written (writes_of ops) (stored_values s)
  /\ (ops <> [] -> synced (fst (run_all ops s))).
Proof.
  split; [| split].
  - revert s. induction ops as [| o ops IH]; intros s; [reflexivity |].
    simpl run_all.
    destruct (run_flag_and_values o s) as [Hf _].
    destruct (run o s) as [s1 c1]; simpl in Hf.
    specialize (IH s1). destruct (run_all ops s1) as [s2 c2].
    simpl in *. rewrite IH, Hf.
    destruct o; reflexivity.
  - revert s. induction ops as [| o ops IH]; intros s; [reflexivity |].
    simpl run_all.
    destruct (run_flag_and_values o s) as [_ Hv].
    destruct (run o s) as [s1 c1]; simpl in Hv.
    specialize (IH s1). destruct (run_all ops s1) as [s2 c2].
    simpl in *. rewrite IH, Hv.
    destruct o; reflexivity.
  - destruct ops as [| o ops]; [congruence | intros _].
    simpl run_all.
    pose proof (run_synced o s) as H1.
    destruct (run o s) as [s1 c1]; simpl in H1.
    pose proof (run_all_synced ops s1 H1) as H2.
    destruct (run_all ops s1) as [s2 c2]. exact H2.
Qed.

Lemma writes_in_passthrough (ws : list PassthroughWrite) :
  forall s : t,
    state_ s = kPassthrough ->
    led_ s = stored s ->
    state_ (fst (writes ws s)) = kPassthrough
    /\ stored_values (fst (writes ws s)) = last_written ws (stored_values s)
    /\ led_ (fst (writes ws s)) = stored (fst (writes ws s)).
Proof.
  induction ws as [| w ws IH]; intros s Hp Hl.
  - simpl. auto.
  - simpl.
    assert (Hw : exists s1 c1,
               write w s = (s1, c1) /\ state_ s1 = kPassthrough
               /\ led_ s1 = stored s1
               /\ last_written (w :: ws) (stored_values s)
                  = last_written ws (stored_values s1)).
    { destruct s as [st br cr cg cb l]; simpl in Hp; subst st.
      destruct w as [v | v]; eexists; eexists; cbn; repeat split. }
    destruct Hw as (s1 & c1 & Hw & Hp1 & Hl1 & Hlast).
    rewrite Hw. destruct (IH s1 Hp1 Hl1) as (Hf & Hv & Hled).
    destruct (writes ws s1) as [s2 c2]; simpl in *.
    rewrite Hlast. auto.
Qed.

(** X2.  An override is transparent to the passthrough state: on a
    layer in passthrough whose driver shows the stored values,
    [Override], then any passthrough writes, then [EndOverride] leave
    the layer exactly as the same writes alone leave it.  With no write
    at all, [Override] followed by [EndOverride] gives back the state
    before. *)
Theorem override_is_transparent
  (s : t) (c ob : Z) (ws : list PassthroughWrite) :
  state_ s = kPassthrough ->
  led_ s = stored s ->
  fst (EndOverride (fst (writes ws (fst (Override c ob s)))))
  = fst (writes ws s)
  /\ fst (EndOverride (fst (Override c ob s))) = s.
Proof.
  intros Hp Hl.
  assert (Ho : state_ (fst (Override c ob s)) = kOverride) by reflexivity.
  destruct (writes_during_override ws _ Ho) as (_ & _ & _ & Hv).
  destruct (writes_in_passthrough ws s Hp Hl) as (Hf' & Hv' & Hl').
  set (s2 := fst (writes ws (fst (Override c ob s)))) in *.
  assert (Hv2 : stored_values s2 = stored_values (fst (writes ws s)))
    by (rewrite Hv'; exact Hv).
  split.
  - apply layer_ext.
    + rewrite Hf'. reflexivity.
    + rewrite <- Hv2. destruct s2; reflexivity.
    + rewrite Hl'. rewrite <- (stored_of_values _ _ Hv2).
      destruct s2; reflexivity.
  - apply layer_ext.
    + rewrite Hp. reflexivity.
    + destruct s; reflexivity.
    + rewrite Hl. destruct s; reflexivity.
Qed.

(** The theorem above at the layer after its first call: an override to
    red, then a colour and a brightness written under it. *)
Lemma override_is_transparent_witness :
  fst (EndOverride
         (fst (writes [WColor (Events.mkLedValue 1 2 3); WBrightness 7]
                 (fst (Override 16711680 255 Examples.started_layer)))))
  = fst (writes [WColor (Events.mkLedValue 1 2 3); WBrightness 7]
           Examples.started_layer).
Proof.
  apply (override_is_transparent Examples.started_layer 16711680 255
           [WColor (Events.mkLedValue 1 2 3); WBrightness 7]);
    reflexivity.
Defined.

End OutputLayerRuns.

(* ================================================================== *)
(** * Further properties of the mode controller *)

Section ControllerRuns.

Import StateManager Controller.

#[local] Arguments render : simpl never.

(** Case analysis on a call and on the state it is delivered in, down to
    the flags the handlers branch on. *)
Ltac handle_cases c s :=
  let fl := fresh "fl" in
  let md := fresh "md" in
  let al := fresh "al" in
  let a := fresh "a" in
  let mv := fresh "mv" in
  let tm := fresh "tm" in
  destruct s as [[fl ? ? ? ? ?] md tm al ? ? ?];
  destruct c as [a | | | | | ? | ? | ? | mv | ];
  destruct md; destruct fl; destruct tm;
  try destruct a; try destruct al;
  try (destruct mv as [[|] [|]]).

Lemma handle_all_preserves (P : t -> Prop) :
  (forall c s, P s -> P (fst (handle c s))) ->
  forall cs s, P s -> P (handle_all cs s).
Proof.
  intros Hstep cs. induction cs as [| c cs IH]; intros s Hs; simpl.
  - exact Hs.
  - apply IH, Hstep, Hs.
Qed.

Lemma handle_keeps_flag (c : Call) (s : t) :
  LedOutputStateMachine.state_ (led_ (fst (handle c s)))
  = LedOutputStateMachine.state_ (led_ s).
Proof.
  handle_cases c s; reflexivity.
Qed.

Lemma handle_keeps_synced (c : Call) (s : t) :
  LedOutputStateMachine.synced (led_ s) ->
  LedOutputStateMachine.synced (led_ (fst (handle c s))).
Proof.
  unfold LedOutputStateMachine.synced.
  handle_cases c s; cbn; intros H Hp;
    first [discriminate Hp | reflexivity | exact (H eq_refl)].
Qed.

Lemma handle_makes_no_override_call (c : Call) (s : t) (colour : Z) :
  ~ In (Led (PolychromeLed.CallSetColorHex colour)) (snd (handle c s)).
Proof.
  handle_cases c s; cbn; intros He;
    repeat (destruct He as [He | He]; [discriminate He |]);
    exact He.
Qed.

(** X3.  None of the handlers of the modes (the virtual member
    functions of [State] with their overrides, and the [SetState] and
    constructors they run) changes the flag of the output layer or makes
    the driver call that only [Override] makes.  A layer in passthrough
    whose driver shows the stored values is still so after any sequence
    of handler calls on the active mode.  [Update], [HandleButtonPress]
    and [Init], which the header only declares, are not covered. *)
Theorem handlers_keep_output_flag (cs : list Call) (s : t) :
  LedOutputStateMachine.state_ (led_ (handle_all cs s))
  = LedOutputStateMachine.state_ (led_ s)
  /\ (LedOutputStateMachine.synced (led_ s) ->
      LedOutputStateMachine.synced (led_ (handle_all cs s)))
  /\ (forall (c : Call) (s' : t) (colour : Z),
        ~ In (Led (PolychromeLed.CallSetColorHex colour))
             (snd (handle c s'))).
Proof.
  split; [| split].
  - revert s. induction cs as [| c cs IH]; intros s; simpl.
    + reflexivity.
    + rewrite IH. apply handle_keeps_flag.
  - apply (handle_all_preserves
             (fun s => LedOutputStateMachine.synced (led_ s))).
    intros c s'. apply handle_keeps_synced.
  - exact handle_makes_no_override_call.
Qed.

Lemma handle_timer_follows_mode (c : Call) (s : t) :
  timer_follows_mode s -> timer_follows_mode (fst (handle c s)).
Proof.
  unfold timer_follows_mode.
  intros H.
  handle_cases c s; cbn in H; try discriminate H;
    try (injection H as ->); reflexivity.
Qed.

(** X4.  The timer follows the mode: if the countdown timer is set
    exactly when the active mode is timeout-bearing, and then with that
    mode's duration (3 seconds in [AirQualityThresholdMode], 30 in the
    three demos), the same holds after any sequence of calls delivered
    to the active mode. *)
Theorem timer_follows_mode_invariant (cs : list Call) (s : t) :
  timer_follows_mode s -> timer_follows_mode (handle_all cs s).
Proof.
  apply (handle_all_preserves timer_follows_mode).
  exact handle_timer_follows_mode.
Qed.

(** The theorem above from [AirQualityMode] with the timer unarmed. *)
Lemma timer_follows_mode_invariant_witness :
  timer_follows_mode
    (handle_all
       [CallButtonXReleased; CallButtonAReleased; CallButtonAReleased;
        CallDemoModeTimerExpired; CallAlarmStateChanged true]
       (Examples.manager_in AirQualityMode)).
Proof.
  apply (timer_follows_mode_invariant
           [CallButtonXReleased; CallButtonAReleased; CallButtonAReleased;
            CallDemoModeTimerExpired; CallAlarmStateChanged true]
           (Examples.manager_in AirQualityMode)).
  reflexivity.
Defined.

Lemma handle_brightness_follows_mode (c : Call) (s : t) :
  brightness_follows_mode s -> brightness_follows_mode (fst (handle c s)).
Proof.
  unfold brightness_follows_mode. intros H.
  handle_cases c s; cbn in *;
    first [ left; reflexivity
          | right; split; reflexivity
          | exact H
          | destruct H as [H | [_ H]]; [left; exact H | discriminate H] ].
Qed.

(** X5.  The indicator is dark only where morse edges are followed: if
    the stored brightness is the default 220, or 0 in one of
    [AirQualityAlarmMode], [MorseReadout], [MorseCodeDemo], the same
    holds after any sequence of calls delivered to the active mode; in
    the four other modes the stored brightness is then always 220. *)
Theorem brightness_follows_mode_invariant (cs : list Call) (s : t) :
  brightness_follows_mode s ->
  brightness_follows_mode (handle_all cs s)
  /\ (handles_morse_edge (state_ (handle_all cs s)) = false ->
      LedOutputStateMachine.brightness_ (led_ (handle_all cs s))
      = kDefaultBrightness).
Proof.
  intros H.
  assert (Hinv : brightness_follows_mode (handle_all cs s))
    by (revert H; apply (handle_all_preserves brightness_follows_mode);
        exact handle_brightness_follows_mode).
  split; [exact Hinv |].
  intros Hm. destruct Hinv as [Hb | [_ Hb]]; [exact Hb |].
  rewrite Hm in Hb. discriminate Hb.
Qed.

(** The theorem above from [AirQualityMode] at the default brightness:
    a readout is started, an edge turns the indicator off, and the
    readout is left by button X. *)
Lemma brightness_follows_mode_invariant_witness :
  LedOutputStateMachine.brightness_
    (led_ (handle_all
             [CallButtonYReleased;
              CallMorseCodeEdge (Events.mkMorseCodeValue false false);
              CallButtonXReleased]
             (Examples.manager_in AirQualityMode)))
  = kDefaultBrightness.
Proof.
  apply (brightness_follows_mode_invariant
           [CallButtonYReleased;
            CallMorseCodeEdge (Events.mkMorseCodeValue false false);
            CallButtonXReleased]
           (Examples.manager_in AirQualityMode)).
  - left. reflexivity.
  - reflexivity.
Defined.

Lemma handle_cyan_in_morse_demo (c : Call) (s : t) :
  cyan_in_morse_demo s -> cyan_in_morse_demo (fst (handle c s)).
Proof.
  unfold cyan_in_morse_demo. intros H.
  handle_cases c s; cbn in *; intros Hm;
    first [discriminate Hm | reflexivity | exact (H eq_refl)].
Qed.

(** X6.  While [MorseCodeDemo] is active the stored colour is cyan
    (0, 255, 255): entering the mode sets it and no handler of the mode
    changes it.  If this holds of a state, it holds after any sequence
    of calls delivered to the active mode. *)
Theorem cyan_in_morse_demo_invariant (cs : list Call) (s : t) :
  cyan_in_morse_demo s -> cyan_in_morse_demo (handle_all cs s).
Proof.
  apply (handle_all_preserves cyan_in_morse_demo).
  exact handle_cyan_in_morse_demo.
Qed.

(** The theorem above from [AirQualityMode]: two releases of button X
    enter [MorseCodeDemo]; LED values of other modes and a morse edge
    arrive there. *)
Lemma cyan_in_morse_demo_invariant_witness :
  stored_colour
    (handle_all
       [CallButtonXReleased; CallButtonXReleased;
        CallProximityModeLedValue (Events.mkLedValue 9 9 9);
        CallAirQualityModeLedValue (Events.mkLedValue 255 0 0);
        CallMorseCodeEdge (Events.mkMorseCodeValue false true)]
       (Examples.manager_in AirQualityMode))
  = (0, 255, 255).
Proof.
  apply (cyan_in_morse_demo_invariant
           [CallButtonXReleased; CallButtonXReleased;
            CallProximityModeLedValue (Events.mkLedValue 9 9 9);
            CallAirQualityModeLedValue (Events.mkLedValue 255 0 0);
            CallMorseCodeEdge (Events.mkMorseCodeValue false true)]
           (Examples.manager_in AirQualityMode)).
  - intros Hm. discriminate Hm.
  - reflexivity.
Defined.

(** X7.  An LED value reaches the output only in its own mode: the
    proximity value in [ProximityDemo], the air-quality value in
    [AirQualityMode] and [AirQualityAlarmMode], the colour-rotation
    value in [ColorRotationDemo].  There it becomes the stored colour
    and nothing else of the controller changes; in every other mode the
    call changes nothing and makes no call on any collaborator. *)
Theorem led_value_only_in_its_mode
  (c : Call) (v : Events.LedValue) (s : t) :
  led_value_of c = Some v ->
  handle c s
  = (if takes_led_value c (state_ s)
     then on_led (LedOutputStateMachine.SetColor v) s
     else (s, []))
  /\ stored_colour (fst (handle c s))
     = (if takes_led_value c (state_ s)
        then (Events.r v, Events.g v, Events.b v)
        else stored_colour s)
  /\ LedOutputStateMachine.brightness_ (led_ (fst (handle c s)))
     = LedOutputStateMachine.brightness_ (led_ s)
  /\ with_led (led_ s) (fst (handle c s)) = s
  /\ (forall e, In e (snd (handle c s)) -> exists k, e = Led k).
Proof.
  intros Hv.
  handle_cases c s; try discriminate Hv; injection Hv as <-;
    cbn; repeat split;
    intros e He; cbn in He;
    repeat (destruct He as [<- | He]; [eexists; reflexivity |]);
    contradiction.
Qed.

(** The theorem above for a proximity value delivered in
    [MorseReadout]: nothing happens. *)
Lemma led_value_only_in_its_mode_witness :
  handle (CallProximityModeLedValue (Events.mkLedValue 1 2 3))
    (Examples.manager_in MorseReadout)
  = (Examples.manager_in MorseReadout, []).
Proof.
  apply (led_value_only_in_its_mode
           (CallProximityModeLedValue (Events.mkLedValue 1 2 3))
           (Events.mkLedValue 1 2 3)
           (Examples.manager_in MorseReadout)).
  reflexivity.
Defined.

(** X8.  The alarm mode can be left while the alarm lasts.  In
    [AirQualityAlarmMode] with the alarm flag set, button X does
    nothing and button Y only publishes the silence request of 60
    seconds; button A or B, however, enters
    [AirQualityThresholdMode] with the flag still set, and from then on
    a repeated alarm-state-changed(true) is ignored: the controller does
    not come back to [AirQualityAlarmMode] until the flag has been
    cleared. *)
Theorem alarm_mode_left_by_threshold_buttons (s : t) :
  state_ s = AirQualityAlarmMode ->
  alarmed_ s = true ->
  handle CallButtonXReleased s = (s, [])
  /\ handle CallButtonYReleased s
     = (s, [Publish (Events.AlarmSilenceRequest 60)])
  /\ (forall c,
        c = CallButtonAReleased \/ c = CallButtonBReleased ->
        state_ (fst (handle c s)) = AirQualityThresholdMode
        /\ alarmed_ (fst (handle c s)) = true
        /\ handle (CallAlarmStateChanged true) (fst (handle c s))
           = (fst (handle c s), [])
        /\ state_ (handle_all
                     [c; CallDemoModeTimerExpired; CallAlarmStateChanged true]
                     s)
           = AirQualityMode).
Proof.
  intros Hm Ha.
  destruct s as [[fl ? ? ? ? ?] md tm al ? ? ?]; simpl in Hm, Ha.
  subst md al.
  split; [reflexivity | split; [reflexivity |]].
  intros c [-> | ->]; destruct fl; destruct tm; repeat split.
Qed.

(** The theorem above from the alarm mode with the flag set. *)
Lemma alarm_mode_left_by_threshold_buttons_witness :
  state_ (handle_all
            [CallButtonAReleased; CallDemoModeTimerExpired;
             CallAlarmStateChanged true]
            (with_alarmed true (Examples.manager_in AirQualityAlarmMode)))
  = AirQualityMode.
Proof.
  destruct (alarm_mode_left_by_threshold_buttons
              (with_alarmed true (Examples.manager_in AirQualityAlarmMode))
              eq_refl eq_refl) as (_ & _ & H).
  destruct (H CallButtonAReleased (or_introl eq_refl)) as (_ & _ & _ & Hh).
  exact Hh.
Defined.

(** X9.  What a call can change.  The alarm flag changes only by an
    alarm-state-changed call; the threshold changes only by button A or
    B in [AirQualityThresholdMode]; the last air-quality score is never
    written by any handler. *)
Theorem handlers_frame (c : Call) (s : t) :
  ((forall a, c <> CallAlarmStateChanged a) ->
   alarmed_ (fst (handle c s)) = alarmed_ s)
  /\ (~ (state_ s = AirQualityThresholdMode
         /\ (c = CallButtonAReleased \/ c = CallButtonBReleased)) ->
      current_threshold_ (fst (handle c s)) = current_threshold_ s)
  /\ last_air_quality_score_ (fst (handle c s)) = last_air_quality_score_ s.
Proof.
  split; [| split].
  - intros Hc.
    handle_cases c s; try reflexivity;
      exfalso; eapply Hc; reflexivity.
  - intros Hc.
    handle_cases c s; try reflexivity;
      exfalso; apply Hc; split; auto.
  - handle_cases c s; reflexivity.
Qed.

(** X10.  A morse edge sets the stored brightness to 220 or 0 in the
    three modes that follow edges and does nothing in the four others.
    Only [MorseReadout] looks at the finished flag: with it set, the
    controller goes to [AirQualityMode] and the brightness ends at the
    default whatever the edge asked for; [AirQualityAlarmMode] and
    [MorseCodeDemo] stay as they are. *)
Theorem MorseCodeEdge_by_mode (value : Events.MorseCodeValue) (s : t) :
  (handles_morse_edge (state_ s) = false ->
   handle (CallMorseCodeEdge value) s = (s, []))
  /\ (state_ s = AirQualityAlarmMode \/ state_ s = MorseCodeDemo ->
      state_ (fst (handle (CallMorseCodeEdge value) s)) = state_ s
      /\ LedOutputStateMachine.brightness_
           (led_ (fst (handle (CallMorseCodeEdge value) s)))
         = edge_brightness value)
  /\ (state_ s = MorseReadout ->
      state_ (fst (handle (CallMorseCodeEdge value) s))
      = (if Events.message_finished value
         then AirQualityMode else MorseReadout)
      /\ LedOutputStateMachine.brightness_
           (led_ (fst (handle (CallMorseCodeEdge value) s)))
         = (if Events.message_finished value
            then kDefaultBrightness else edge_brightness value)).
Proof.
  destruct s as [[fl ? ? ? ? ?] md tm al ? ? ?];
    destruct value as [on fin]; simpl.
  split; [| split].
  - intros Hm. destruct md; try discriminate Hm; reflexivity.
  - intros [-> | ->]; destruct fl; split; reflexivity.
  - intros ->. destruct fl, tm, on, fin; split; reflexivity.
Qed.

(** X11.  The mode graph is connected through [AirQualityMode].  From
    every mode at most three button releases lead to [AirQualityMode];
    and from [AirQualityMode] with no alarm stored every mode is
    reached by at most three calls (button X once, twice or three times
    for the demos, button A for the threshold mode, button Y for the
    readout, the raised alarm for the alarm mode). *)
Theorem modes_connected (m : Mode) (s : t) :
  state_ (handle_all (way_home (state_ s)) s) = AirQualityMode
  /\ (List.length (way_home m) <= 3)%nat
  /\ (List.length (way_to m) <= 3)%nat
  /\ (state_ s = AirQualityMode ->
      alarmed_ s = false ->
      state_ (handle_all (way_to m) s) = m).
Proof.
  split; [| split; [| split]].
  - destruct s as [[fl ? ? ? ? ?] md tm al ? ? ?]; simpl state_.
    destruct md; destruct fl; destruct tm; reflexivity.
  - destruct m; simpl; lia.
  - destruct m; simpl; lia.
  - intros Hm Ha.
    destruct s as [[fl ? ? ? ? ?] md tm al ? ? ?]; simpl in Hm, Ha.
    subst md al.
    destruct m; destruct fl; destruct tm; reflexivity.
Qed.

End ControllerRuns.

(* ================================================================== *)
(** * Further properties of blinky *)

Section BlinkyRuns.

Import Blinky BlinkyCommands.

(** Short of fuel for all its tests of the loop condition, the run has
    not returned. *)
Lemma BlinkLoop_from_short_of_fuel (fuel : nat) :
  forall (n : nat) (blink_count interval blinked : Z) (s : t),
    0 <= blinked ->
    blinked + Z.of_nat n = blink_count ->
    blink_count < 4294967296 ->
    (fuel <= n)%nat ->
    BlinkLoop_from fuel blink_count interval blinked s = None.
Proof.
  induction fuel as [| fuel IH]; intros n bc interval blinked s Hb Hn Hbc Hf.
  - reflexivity.
  - destruct n as [| n]; [lia |]. simpl.
    unfold loop_condition.
    replace (blinked <? bc) with true by (symmetry; apply Z.ltb_lt; lia).
    simpl orb.
    replace (wrap32 (blinked + 1)) with (blinked + 1)
      by (unfold wrap32; symmetry; apply Z.mod_small; lia).
    rewrite (IH n bc interval (blinked + 1)); try lia. reflexivity.
Qed.

(** X12.  [BlinkLoop] with [0 < blink_count < 2^32] tests its loop
    condition exactly [blink_count + 1] times: a run allowed
    [blink_count] tests or fewer has not returned, and every run allowed
    more returns the same result. *)
Theorem BlinkLoop_needs_count_plus_one_tests
  (blink_count interval : Z) (s : t) (fuel : nat) :
  0 < blink_count < 4294967296 ->
  ((fuel <= Z.to_nat blink_count)%nat ->
   BlinkLoop fuel blink_count interval s = None)
  /\ ((Z.to_nat blink_count < fuel)%nat ->
      BlinkLoop fuel blink_count interval s
      = BlinkLoop (S (Z.to_nat blink_count)) blink_count interval s
      /\ BlinkLoop fuel blink_count interval s <> None).
Proof.
  intros Hr. split.
  - intros Hf. unfold BlinkLoop.
    apply (BlinkLoop_from_short_of_fuel fuel (Z.to_nat blink_count)); lia.
  - intros Hf. unfold BlinkLoop.
    rewrite (BlinkLoop_from_counts (Z.to_nat blink_count) fuel); try lia.
    rewrite (BlinkLoop_from_counts (Z.to_nat blink_count)
               (S (Z.to_nat blink_count))); try lia.
    split; [reflexivity | discriminate].
Qed.

(** The theorem above for three blinks: three tests are not enough,
    five give what four give. *)
Lemma BlinkLoop_needs_count_plus_one_tests_witness :
  BlinkLoop 3 3 250 Examples.blinky = None
  /\ BlinkLoop 5 3 250 Examples.blinky = BlinkLoop 4 3 250 Examples.blinky.
Proof.
  split.
  - apply (BlinkLoop_needs_count_plus_one_tests 3 250 Examples.blinky 3);
      [lia | vm_compute; lia].
  - apply (BlinkLoop_needs_count_plus_one_tests 3 250 Examples.blinky 5);
      [lia | vm_compute; lia].
Defined.

Lemma blink_pairs_led_operations (n : nat) (interval : Z) :
  led_operations (blink_pairs n interval)
  = List.concat (repeat [Blinky.MonochromeTurnOff; Blinky.MonochromeTurnOn] n).
Proof.
  induction n as [| n IH]; [reflexivity |].
  unfold led_operations, blink_pairs in *.
  cbn [repeat List.concat app blink_pair filter is_led_operation].
  rewrite IH. reflexivity.
Qed.

Lemma total_wait_app (xs ys : list Blinky.Effect) :
  total_wait (xs ++ ys) = total_wait xs + total_wait ys.
Proof.
  induction xs as [| x xs IH]; simpl; [reflexivity |].
  destruct x; rewrite IH; lia.
Qed.

Lemma blink_pairs_total_wait (n : nat) (interval : Z) :
  total_wait (blink_pairs n interval) = 2 * Z.of_nat n * interval.
Proof.
  induction n as [| n IH]; [reflexivity |].
  unfold blink_pairs in *. rewrite Nat2Z.inj_succ.
  cbn [repeat List.concat app blink_pair total_wait].
  rewrite IH. lia.
Qed.

(** X13.  A run of [BlinkLoop] that returns has driven the monochrome
    LED off and on in strict alternation, [blink_count] times each, and
    then off once more, so the LED is off at the end whatever it was at
    the start; the run has waited [2 * blink_count] times, for
    [2 * blink_count * interval] in all. *)
Theorem BlinkLoop_alternates_and_waits
  (blink_count interval : Z) (s s' : t) (st : Status)
  (es : list Blinky.Effect) (fuel : nat) :
  0 <= blink_count < 4294967296 ->
  BlinkLoop fuel blink_count interval s = Some (st, s', es) ->
  led_operations es
  = List.concat
      (repeat [Blinky.MonochromeTurnOff; Blinky.MonochromeTurnOn] (Z.to_nat blink_count))
    ++ [Blinky.MonochromeTurnOff]
  /\ total_wait es = 2 * blink_count * interval
  /\ monochrome_led_ s' = false
  /\ st = OkStatus.
Proof.
  intros Hr Hrun.
  destruct (Z.eq_dec blink_count 0) as [Hz | Hz].
  - subst blink_count. unfold BlinkLoop in Hrun.
    rewrite BlinkLoop_from_zero_never_returns in Hrun. discriminate Hrun.
  - destruct (Nat.le_gt_cases fuel (Z.to_nat blink_count)) as [Hf | Hf].
    + unfold BlinkLoop in Hrun.
      rewrite (BlinkLoop_from_short_of_fuel fuel (Z.to_nat blink_count))
        in Hrun; try lia.
      discriminate Hrun.
    + unfold BlinkLoop in Hrun.
      rewrite (BlinkLoop_from_counts (Z.to_nat blink_count) fuel)
        in Hrun; try lia.
      injection Hrun as <- <- <-.
      repeat split.
      * unfold led_operations. rewrite filter_app.
        fold (led_operations (blink_pairs (Z.to_nat blink_count) interval)).
        rewrite blink_pairs_led_operations. reflexivity.
      * rewrite total_wait_app, blink_pairs_total_wait. simpl total_wait.
        rewrite Z2Nat.id; lia.
Qed.

(** The theorem above for two blinks at 500. *)
Lemma BlinkLoop_alternates_and_waits_witness :
  total_wait (blink_pairs 2 500 ++ blink_stop) = 2 * 2 * 500.
Proof.
  apply (BlinkLoop_alternates_and_waits 2 500 Examples.blinky
           (with_monochrome false Examples.blinky) OkStatus
           (blink_pairs 2 500 ++ blink_stop) 3).
  - lia.
  - reflexivity.
Defined.

(** X14.  [Blink] returns [OkStatus] for every count and interval and
    leaves the blink task registered with the loop for the given count.
    Its log line announces an endless blink exactly when the loop it
    installs never returns, that is, exactly when [blink_count] is 0. *)
Theorem Blink_announces_what_the_loop_does
  (for_at_least : Z -> Z) (blink_count interval_ms : Z) (s : t) :
  0 <= blink_count < 4294967296 ->
  fst (fst (Blink for_at_least blink_count interval_ms s)) = OkStatus
  /\ IsIdle (snd (fst (Blink for_at_least blink_count interval_ms s)))
     = false
  /\ In (SetCoro blink_count (for_at_least interval_ms))
        (snd (Blink for_at_least blink_count interval_ms s))
  /\ (existsb announces_forever
        (snd (Blink for_at_least blink_count interval_ms s)) = true
      <-> forall (fuel : nat) (s0 : t),
            BlinkLoop fuel blink_count (for_at_least interval_ms) s0 = None).
Proof.
  intros Hr. repeat split.
  - simpl. auto.
  - intros Hlog fuel s0.
    destruct (Z.eqb_spec blink_count 0) as [-> | Hne].
    + apply BlinkLoop_from_zero_never_returns.
    + simpl in Hlog. apply Z.eqb_neq in Hne. rewrite Hne in Hlog.
      discriminate Hlog.
  - intros Hnever.
    destruct (Z.eqb_spec blink_count 0) as [-> | Hne]; [reflexivity |].
    specialize (Hnever (S (Z.to_nat blink_count)) s).
    unfold BlinkLoop in Hnever.
    rewrite (BlinkLoop_from_counts (Z.to_nat blink_count)) in Hnever;
      try lia.
    discriminate Hnever.
Qed.

(** The theorem above for an endless blink. *)
Lemma Blink_announces_what_the_loop_does_witness :
  fst (fst (Blink (fun ms => ms) 0 100 Examples.blinky)) = OkStatus.
Proof.
  apply (Blink_announces_what_the_loop_does
           (fun ms => ms) 0 100 Examples.blinky).
  lia.
Defined.

(** X15.  [Toggle] and [SetLed] stop a pending blink: each deregisters
    the blink task before it touches the LED, so [IsIdle] holds
    afterwards, also right after [Blink].  [SetLed(on)] leaves the LED at
    [on] whatever it was, and two [Toggle]s leave it as it was. *)
Theorem manual_led_commands_stop_the_blink
  (for_at_least : Z -> Z) (blink_count interval_ms : Z) (on : bool) (s : t) :
  IsIdle (fst (Toggle s)) = true
  /\ IsIdle (fst (SetLed on s)) = true
  /\ IsIdle (fst (SetLed on
                    (snd (fst (Blink for_at_least blink_count
                                 interval_ms s))))) = true
  /\ hd_error (snd (Toggle s)) = Some Deregister
  /\ hd_error (snd (SetLed on s)) = Some Deregister
  /\ monochrome_led_ (fst (SetLed on s)) = on
  /\ fst (SetLed on (fst (SetLed on s))) = fst (SetLed on s)
  /\ monochrome_led_ (fst (Toggle (fst (Toggle s)))) = monochrome_led_ s.
Proof.
  destruct s as [[|] p [|]]; destruct on; repeat split.
Qed.

End BlinkyRuns.

(* ================================================================== *)
(** * The board support functions *)

Section SystemRuns.

Import System.

Variable PICO_DEFAULT_LED_PIN : Z.
Variables kMassStorage kPicoboot : Z.

Lemma SystemInit_uninitialized (depth : nat) :
  SystemInit PICO_DEFAULT_LED_PIN depth false
  = (StillRunning, init_prefix PICO_DEFAULT_LED_PIN depth).
Proof.
  induction depth as [| depth IH]; [reflexivity |].
  simpl. unfold SystemSetLed_body. rewrite IH. reflexivity.
Qed.

Lemma init_prefix_needs_nothing (n : nat) :
  forallb (fun c => negb (needs_init_done c))
    (init_prefix PICO_DEFAULT_LED_PIN n) = true.
Proof.
  induction n as [| n IH]; [reflexivity |].
  unfold init_prefix in *. simpl. exact IH.
Qed.

(** X16.  From the initial state of the static flag ([initialized] is
    false) a call of [SystemInit] does not return: inside its guarded
    block it calls [SystemSetLed(false)], whose first statement is
    [SystemInit()] with the flag still unset.  However deep the nesting
    is allowed to go, the call is still running and has made only
    [gpio_init] and [gpio_set_dir] calls, one pair per activation.  The
    same holds of [SystemSetLed] and [SystemReboot], which start with
    [SystemInit()]: they never reach [gpio_put], [adc_init] or
    [reset_usb_boot]. *)
Theorem SystemInit_never_returns
  (depth : nat) (enable : bool) (reboot_types : Z) :
  SystemInit PICO_DEFAULT_LED_PIN depth false
  = (StillRunning, init_prefix PICO_DEFAULT_LED_PIN depth)
  /\ SystemSetLed PICO_DEFAULT_LED_PIN depth enable false
     = (StillRunning, init_prefix PICO_DEFAULT_LED_PIN depth)
  /\ SystemReboot PICO_DEFAULT_LED_PIN kMassStorage kPicoboot
       depth reboot_types false
     = (StillRunning, init_prefix PICO_DEFAULT_LED_PIN depth)
  /\ List.length (init_prefix PICO_DEFAULT_LED_PIN depth) = (2 * depth)%nat
  /\ (forall c,
        In c (init_prefix PICO_DEFAULT_LED_PIN depth) ->
        needs_init_done c = false).
Proof.
  split; [apply SystemInit_uninitialized |].
  split; [unfold SystemSetLed, SystemSetLed_body;
          rewrite SystemInit_uninitialized; reflexivity |].
  split; [unfold SystemReboot;
          rewrite SystemInit_uninitialized; reflexivity |].
  split.
  - induction depth as [| d IH]; [reflexivity |].
    unfold init_prefix in *. simpl. rewrite IH. lia.
  - intros c Hc.
    pose proof (init_prefix_needs_nothing depth) as H.
    rewrite forallb_forall in H. specialize (H c Hc).
    destruct (needs_init_done c); [discriminate H | reflexivity].
Qed.

End SystemRuns.
